(** * SeaGOAT: the history-driven ranking engine of [seagoat/repository.py]

    A shallow embedding of [parse_commit_info] and of the [Repository]
    methods, followed by the properties of the specification that hold of
    them (and the inputs at which the others fail).

    Conventions of the embedding.
    - A Python [str] is a list of code points below 256, one [ascii] each.
    - An exception is a value of [exn]; a call that may raise returns a
      [result].
    - The outputs of the external tools ([git log], [git ls-tree],
      [git diff], [git rev-parse], [rg --files]) are inputs of the model.
      A tool that exits non-zero aborts the whole operation before any of
      the code below runs and is not modelled.
    - [datetime.strptime], [Path.match], [is_file_type_supported] and the
      float arithmetic of [math.exp] and [sum] are library code: they are
      fields of the classes [Collaborators] and [PyFloat]. *)

From Stdlib Require Import List ZArith Ascii String Bool Lia Permutation Sorted.
From Stdlib Require Import Reals Lra.
From Stdlib Require Import DecimalString DecimalZ.
Import ListNotations.
Open Scope string_scope.
Open Scope list_scope.

(** ** Python strings *)

Abbreviation str := (list ascii).
Coercion list_ascii_of_string : string >-> list.

Module PyStr.
Local Open Scope nat_scope.

Definition eqb (a b : str) : bool :=
  if list_eq_dec ascii_dec a b then true else false.

(** [str.isspace] on one code point below 256. *)
Definition isspace (c : ascii) : bool :=
  let n := nat_of_ascii c in
  ((9 <=? n) && (n <=? 13)) || ((28 <=? n) && (n <=? 32))
  || (n =? 133) || (n =? 160).

Fixpoint lstrip (s : str) : str :=
  match s with
  | c :: s' => if isspace c then lstrip s' else s
  | [] => []
  end.

Definition rstrip (s : str) : str := rev (lstrip (rev s)).

(** [s.strip()] *)
Definition strip (s : str) : str := rstrip (lstrip s).

(** [s.startswith(p)] *)
Fixpoint startswith (p s : str) : bool :=
  match p, s with
  | [], _ => true
  | a :: p', b :: s' => Ascii.eqb a b && startswith p' s'
  | _ :: _, [] => false
  end.

(** [s.endswith(p)] *)
Definition endswith (p s : str) : bool := startswith (rev p) (rev s).

(** [sub in s] *)
Fixpoint contains (sub s : str) : bool :=
  startswith sub s ||
  match s with
  | [] => false
  | _ :: s' => contains sub s'
  end.

(** The text before and after the leftmost occurrence of [sep]. *)
Fixpoint cut (sep s : str) : option (str * str) :=
  if startswith sep s then Some ([], skipn (List.length sep) s)
  else match s with
       | [] => None
       | c :: s' =>
           match cut sep s' with
           | Some (before, after) => Some (c :: before, after)
           | None => None
           end
       end.

(** [s.split(sep, maxsplit)] for a non-empty [sep]: the pieces between
    the [maxsplit] leftmost occurrences of [sep], the last piece being
    the whole remainder. *)
Fixpoint split (sep : str) (maxsplit : nat) (s : str) : list str :=
  match maxsplit with
  | O => [s]
  | S m =>
      match cut sep s with
      | Some (before, after) => before :: split sep m after
      | None => [s]
      end
  end.

Fixpoint split_ws_from (cur : str) (s : str) : list str :=
  match s with
  | [] => match cur with [] => [] | _ => [rev cur] end
  | c :: s' =>
      if isspace c
      then match cur with
           | [] => split_ws_from [] s'
           | _ => rev cur :: split_ws_from [] s'
           end
      else split_ws_from (c :: cur) s'
  end.

(** [s.split()]: the maximal runs of non-whitespace. *)
Definition split_ws (s : str) : list str := split_ws_from [] s.

(** The one-character line boundaries of [str.splitlines] below 256. *)
Definition islinebreak (c : ascii) : bool :=
  let n := nat_of_ascii c in
  ((10 <=? n) && (n <=? 13)) || ((28 <=? n) && (n <=? 30)) || (n =? 133).

Definition is_cr (c : ascii) : bool := nat_of_ascii c =? 13.
Definition is_lf (c : ascii) : bool := nat_of_ascii c =? 10.

Fixpoint splitlines_from (cur : str) (s : str) : list str :=
  match s with
  | [] => match cur with [] => [] | _ => [rev cur] end
  | c :: s' =>
      if is_cr c
      then match s' with
           | d :: s'' =>
               if is_lf d then rev cur :: splitlines_from [] s''
               else rev cur :: splitlines_from [] s'
           | [] => rev cur :: splitlines_from [] s'
           end
      else if islinebreak c then rev cur :: splitlines_from [] s'
      else splitlines_from (c :: cur) s'
  end.

(** [s.splitlines()] *)
Definition splitlines (s : str) : list str := splitlines_from [] s.

(** [s.index(c)] for a one-character needle; [None] is the [ValueError]. *)
Fixpoint index (c : ascii) (s : str) : option nat :=
  match s with
  | [] => None
  | d :: s' =>
      if Ascii.eqb c d then Some O
      else match index c s' with
           | Some i => Some (S i)
           | None => None
           end
  end.

Definition tab : ascii := ascii_of_nat 9.
Definition newline : ascii := ascii_of_nat 10.

End PyStr.

(** ** Exceptions *)

Inductive exn : Type :=
| ValueError_unpack (expected got : nat)
    (* "not enough values to unpack (expected 4, got n)" *)
| ValueError_strptime
    (* "time data ... does not match format ..." *)
| ValueError_index
    (* "substring not found" *)
| TypeError_unpack_None
    (* "cannot unpack non-iterable NoneType object" *)
| IndexError
    (* "list index out of range" *)
| TypeError_subscript_None
    (* "'NoneType' object is not subscriptable" *)
| KeyError (key : str).

(** [issubclass(type(e), LookupError)] *)
Definition is_LookupError (e : exn) : bool :=
  match e with
  | IndexError | KeyError _ => true
  | _ => false
  end.

Inductive result (A : Type) : Type :=
| Ok (a : A)
| Raise (e : exn).
Arguments Ok {A} a.
Arguments Raise {A} e.

Definition bind {A B : Type} (r : result A) (k : A -> result B) : result B :=
  match r with
  | Ok a => k a
  | Raise e => Raise e
  end.

Notation "x <- r ;; k" := (bind r (fun x => k))
  (at level 61, r at next level, right associativity).
Notation "' p <- r ;; k" := (bind r (fun p => k))
  (at level 61, p pattern, r at next level, right associativity).

(** ** Calendar dates ([datetime.date])

    A [date] object always holds a day that exists: the constructor
    refuses any other, so the record carries the check. *)

Module PyDate.
Open Scope Z_scope.

Definition is_leap (y : Z) : bool :=
  (y mod 4 =? 0) && (negb (y mod 100 =? 0) || (y mod 400 =? 0)).

Definition days_in_month (y m : Z) : Z :=
  if m =? 2 then (if is_leap y then 29 else 28)
  else if (m =? 4) || (m =? 6) || (m =? 9) || (m =? 11) then 30
  else 31.

Definition valid_ymd (y m d : Z) : bool :=
  (1 <=? y) && (y <=? 9999) && (1 <=? m) && (m <=? 12)
  && (1 <=? d) && (d <=? days_in_month y m).

Record date : Type := mkdate {
  year : Z;
  month : Z;
  day : Z;
  date_valid : valid_ymd year month day = true
}.

(** The extra day of a leap year. *)
Definition leap_day (y : Z) : Z := if is_leap y then 1 else 0.

(** [date(y, m, d)]; [None] is its [ValueError]. *)
Definition of_ymd (y m d : Z) : option date :=
  match valid_ymd y m d as b return valid_ymd y m d = b -> option date with
  | true => fun ok => Some (mkdate y m d ok)
  | false => fun _ => None
  end eq_refl.

(** [_days_before_year] *)
Definition days_before_year (y : Z) : Z :=
  let p := y - 1 in p * 365 + p / 4 - p / 100 + p / 400.

(** [_days_before_month] *)
Definition days_before_month (y m : Z) : Z :=
  fold_right Z.add 0
    (map (days_in_month y) (map Z.of_nat (seq 1 (Z.to_nat (m - 1))))).

(** [date.toordinal] *)
Definition toordinal (d : date) : Z :=
  days_before_year (year d) + days_before_month (year d) (month d) + day d.

(** [(a - b).days] *)
Definition days_between (a b : date) : Z := toordinal a - toordinal b.

(** [a <= b]: dates compare as the triples (year, month, day). *)
Definition leb (a b : date) : bool :=
  (year a <? year b)
  || ((year a =? year b)
      && ((month a <? month b)
          || ((month a =? month b) && (day a <=? day b)))).

End PyDate.

Abbreviation date := PyDate.date.

(** ** Dictionaries

    A Python [dict] keeps its keys in insertion order, and [top_files]
    sorts the items of one with a stable sort, so a dictionary is an
    association list: [set] overwrites in place or appends at the end. *)

Module Dict.

Definition t (V : Type) : Type := list (str * V).

Definition empty {V : Type} : t V := [].

Fixpoint get {V : Type} (d : t V) (k : str) : option V :=
  match d with
  | [] => None
  | (k', v) :: d' => if PyStr.eqb k k' then Some v else get d' k
  end.

(** [k in d] *)
Definition mem {V : Type} (d : t V) (k : str) : bool :=
  match get d k with Some _ => true | None => false end.

(** [d[k] = v] *)
Fixpoint set {V : Type} (d : t V) (k : str) (v : V) : t V :=
  match d with
  | [] => [(k, v)]
  | (k', v') :: d' =>
      if PyStr.eqb k k' then (k', v) :: d' else (k', v') :: set d' k v
  end.

Definition keys {V : Type} (d : t V) : list str := map fst d.

(** [d.items()] *)
Definition items {V : Type} (d : t V) : list (str * V) := d.

(** [d[k]] on a [defaultdict(list)]: a missing key is inserted with an
    empty list, which is returned. *)
Definition get_default {V : Type} (d : t (list V)) (k : str)
  : list V * t (list V) :=
  match get d k with
  | Some l => (l, d)
  | None => ([], set d k [])
  end.

(** [d[k].append(v)] on a [defaultdict(list)] *)
Definition append {V : Type} (d : t (list V)) (k : str) (v : V)
  : t (list V) :=
  let '(l, d') := get_default d k in set d' k (l ++ [v]).

End Dict.

(** ** Collaborators *)

Class Collaborators : Type := {
  (** [datetime.datetime.strptime(s, "%Y-%m-%d %H:%M:%S %z").date()];
      [None] is its [ValueError]. *)
  strptime_date : str -> option date;
  (** [seagoat.utils.file_types.is_file_type_supported] *)
  is_file_type_supported : str -> bool;
  (** [Path(path).match(pattern)] *)
  path_match : str -> str -> bool;
  (** [str(Path(a) / b)] *)
  path_join : str -> str -> str
}.

(** Python floats: the operations [_compute_frecency] and [top_files]
    apply to them. *)
Class PyFloat : Type := {
  float : Type;
  (** the literal [0.01] *)
  lit_0_01 : float;
  (** unary minus *)
  fneg : float -> float;
  (** the conversion of the [int] operand of [float * int] *)
  float_of_int : Z -> float;
  fmul : float -> float -> float;
  (** [math.exp] *)
  fexp : float -> float;
  (** the builtin [sum] of an iterable of floats, from the [int] 0 *)
  fsum : list float -> float;
  (** [x < y] *)
  fltb : float -> float -> bool
}.

(** ** The commit record parser *)

(** The tuple [(commit_hash, days_passed, author, commit_subject)]. *)
Record commit_info : Type := mkcommit {
  commit_hash : str;
  days_passed : Z;
  author : str;
  commit_subject : str
}.

Definition parse_commit_info `{C : Collaborators} (today : date) (raw_line : str)
  : result commit_info :=
  match PyStr.split ":::" 3 raw_line with
  | [commit_hash; date_str; author; commit_subject] =>
      match strptime_date date_str with
      | Some commit_date =>
          let days_passed := PyDate.days_between today commit_date in
          Ok (mkcommit commit_hash days_passed author commit_subject)
      | None => Raise ValueError_strptime
      end
  | pieces => Raise (ValueError_unpack 4 (List.length pieces))
  end.

(** ** The repository *)

Record Config : Type := mkconfig {
  ignorePatterns : list str;
  readMaxCommits : option Z
}.

Record Repository `{F : PyFloat} : Type := mkrepo {
  path : str;
  config : Config;
  file_changes : Dict.t (list (option commit_info));
  frecency_scores : Dict.t float
}.

(** The object [top_files] and [get_file] build: the arguments of the
    [GitFile] constructor after the repository itself. *)
Record GitFile `{F : PyFloat} : Type := mkgitfile {
  gf_path : str;
  gf_absolute_path : str;
  gf_object_id : str;
  gf_score : float;
  gf_commit_messages : list str
}.

Section Repository.
Context `{C : Collaborators} `{F : PyFloat}.

(** [Repository.__init__] *)
Definition init (repo_path : str) (cfg : Config) : Repository :=
  mkrepo _ repo_path cfg Dict.empty Dict.empty.

Definition _is_file_ignored (self : Repository) (p : str) : bool :=
  existsb (fun pattern => path_match p pattern) (ignorePatterns (config self)).

(** [output.split()[2].strip()] of the listing of one path. *)
Definition get_file_object_id (ls_tree : list str -> str) (file_path : str)
  : result str :=
  match nth_error (PyStr.split_ws (ls_tree [file_path])) 2 with
  | Some object_id => Ok (PyStr.strip object_id)
  | None => Raise IndexError
  end.

(** One iteration of the loop of [_get_all_object_ids]. *)
Definition object_id_of_line (res : Dict.t str) (line : str)
  : result (Dict.t str) :=
  match PyStr.index PyStr.tab line with
  | None => Raise ValueError_index
  | Some tab_pos =>
      let filename := skipn (tab_pos + 1) line in
      match nth_error (PyStr.split_ws (firstn tab_pos line)) 2 with
      | Some object_id => Ok (Dict.set res filename object_id)
      | None => Raise IndexError
      end
  end.

Fixpoint object_ids_of_lines (res : Dict.t str) (lines : list str)
  : result (Dict.t str) :=
  match lines with
  | [] => Ok res
  | line :: rest =>
      res' <- object_id_of_line res line ;; object_ids_of_lines res' rest
  end.

Definition _get_all_object_ids (ls_tree : list str -> str)
  (filenames : list str) : result (Dict.t str) :=
  match filenames with
  | [] => Ok Dict.empty
  | _ => object_ids_of_lines Dict.empty (PyStr.splitlines (ls_tree filenames))
  end.


(** [math.exp(-0.01 * days_passed)] *)
Definition decay (days : Z) : float :=
  fexp (fmul (fneg lit_0_01) (float_of_int days)).

(** The generator of [_compute_frecency]: each commit is unpacked into
    four names, which raises on [None]. *)
Fixpoint decays (commits : list (option commit_info)) : result (list float) :=
  match commits with
  | [] => Ok []
  | Some c :: rest => ds <- decays rest ;; Ok (decay (days_passed c) :: ds)
  | None :: _ => Raise TypeError_unpack_None
  end.

Fixpoint compute_scores (items : list (str * list (option commit_info)))
  (scores : Dict.t float) : result (Dict.t float) :=
  match items with
  | [] => Ok scores
  | (file, commits) :: rest =>
      ds <- decays commits ;;
      compute_scores rest (Dict.set scores file (fsum ds))
  end.

Definition _compute_frecency (self : Repository) : result Repository :=
  scores <- compute_scores (Dict.items (file_changes self)) Dict.empty ;;
  Ok (mkrepo _ (path self) (config self) (file_changes self) scores).

(** The state of the loop of [analyze_files]: the cursor
    [current_commit_info] and [self.file_changes]. *)
Definition loop_state : Type :=
  (option commit_info * Dict.t (list (option commit_info)))%type.

(** The body of the loop of [analyze_files] on one line read from the
    log. *)
Definition analyze_line (self : Repository) (today : date) (files : list str)
  (st : loop_state) (raw : str) : result loop_state :=
  let '(current_commit_info, changes) := st in
  let line := PyStr.strip raw in
  if PyStr.contains ":::" line then
    c <- parse_commit_info today line ;; Ok (Some c, changes)
  else
    match line with
    | [] => Ok st
    | _ =>
        let filename := line in
        if negb (is_file_type_supported filename)
           || _is_file_ignored self filename
           || negb (existsb (PyStr.eqb filename) files)
        then Ok st
        else Ok (current_commit_info,
                 Dict.append changes filename current_commit_info)
    end.

Fixpoint analyze_lines (self : Repository) (today : date) (files : list str)
  (st : loop_state) (log : list str) : result loop_state :=
  match log with
  | [] => Ok st
  | raw :: rest =>
      st' <- analyze_line self today files st raw ;;
      analyze_lines self today files st' rest
  end.

(** [analyze_files]; [rg_files] is the output of [rg --files] and [log]
    the lines read from [git log]. *)
Definition analyze_files (self : Repository) (today : date) (rg_files : str)
  (log : list str) : result Repository :=
  let files := PyStr.split_ws rg_files in
  '(_, changes) <- analyze_lines self today files (None, Dict.empty) log ;;
  _compute_frecency (mkrepo _ (path self) (config self) changes
                       (frecency_scores self)).

(** [sorted(items, key=lambda x: x[1], reverse=True)]: descending by
    score, items of equal score in their original order.  The sort
    compares scores with [<] only. *)
Fixpoint insert_desc (x : str * float) (l : list (str * float))
  : list (str * float) :=
  match l with
  | [] => [x]
  | y :: l' => if fltb (snd x) (snd y) then y :: insert_desc x l' else x :: l
  end.

Definition sorted_desc (l : list (str * float)) : list (str * float) :=
  fold_right insert_desc [] l.

(** [[commit[3] for commit in commits]] *)
Fixpoint subjects (commits : list (option commit_info)) : result (list str) :=
  match commits with
  | [] => Ok []
  | Some c :: rest => ms <- subjects rest ;; Ok (commit_subject c :: ms)
  | None :: _ => Raise TypeError_subscript_None
  end.

(** The list comprehension of [top_files]; reading
    [self.file_changes[filename]] goes through the [defaultdict]. *)
Fixpoint ranked (repo_path : str) (object_ids : Dict.t str)
  (changes : Dict.t (list (option commit_info)))
  (sorted_files : list (str * float))
  : result (list (GitFile * float) * Dict.t (list (option commit_info))) :=
  match sorted_files with
  | [] => Ok ([], changes)
  | (filename, score) :: rest =>
      match Dict.get object_ids filename with
      | None => ranked repo_path object_ids changes rest
      | Some object_id =>
          let '(commits, changes') := Dict.get_default changes filename in
          ms <- subjects commits ;;
          '(tl, changes'') <- ranked repo_path object_ids changes' rest ;;
          Ok ((mkgitfile _ filename (path_join repo_path filename)
                 object_id score ms, score) :: tl, changes'')
      end
  end.

Definition top_files (self : Repository) (ls_tree : list str -> str)
  : result (list (GitFile * float) * Repository) :=
  let sorted_files := sorted_desc (Dict.items (frecency_scores self)) in
  object_ids <- _get_all_object_ids ls_tree (map fst sorted_files) ;;
  '(res, changes) <-
     ranked (path self) object_ids (file_changes self) sorted_files ;;
  Ok (res, mkrepo _ (path self) (config self) changes (frecency_scores self)).

(** [get_file]: the arguments of [GitFile] are evaluated left to right. *)
Definition get_file (self : Repository) (ls_tree : list str -> str)
  (filename : str) : result (GitFile * Repository) :=
  let absolute := path_join (path self) filename in
  object_id <- get_file_object_id ls_tree filename ;;
  match Dict.get (frecency_scores self) filename with
  | None => Raise (KeyError filename)
  | Some score =>
      let '(commits, changes) := Dict.get_default (file_changes self) filename in
      ms <- subjects commits ;;
      Ok (mkgitfile _ filename absolute object_id score ms,
          mkrepo _ (path self) (config self) changes (frecency_scores self))
  end.

End Repository.

(** ** SHA-256 ([hashlib.sha256]), on 32-bit words held in [Z] *)

Module Sha256.
Open Scope Z_scope.

Definition mask32 : Z := 0xffffffff.
Definition w32 (x : Z) : Z := Z.land x mask32.
Definition add32 (a b : Z) : Z := w32 (a + b).
Definition rotr (n x : Z) : Z :=
  Z.lor (Z.shiftr x n) (w32 (Z.shiftl x (32 - n))).
Definition shr (n x : Z) : Z := Z.shiftr x n.
Definition not32 (x : Z) : Z := Z.lxor x mask32.

Definition Ch (x y z : Z) : Z := Z.lxor (Z.land x y) (Z.land (not32 x) z).
Definition Maj (x y z : Z) : Z :=
  Z.lxor (Z.lxor (Z.land x y) (Z.land x z)) (Z.land y z).
Definition Sigma0 (x : Z) : Z :=
  Z.lxor (Z.lxor (rotr 2 x) (rotr 13 x)) (rotr 22 x).
Definition Sigma1 (x : Z) : Z :=
  Z.lxor (Z.lxor (rotr 6 x) (rotr 11 x)) (rotr 25 x).
Definition sigma0 (x : Z) : Z :=
  Z.lxor (Z.lxor (rotr 7 x) (rotr 18 x)) (shr 3 x).
Definition sigma1 (x : Z) : Z :=
  Z.lxor (Z.lxor (rotr 17 x) (rotr 19 x)) (shr 10 x).

(** The first sixty-four primes. *)
Definition primes : list Z :=
  [ 2; 3; 5; 7; 11; 13; 17; 19; 23; 29; 31; 37; 41; 43; 47; 53;
    59; 61; 67; 71; 73; 79; 83; 89; 97; 101; 103; 107; 109; 113; 127; 131;
    137; 139; 149; 151; 157; 163; 167; 173; 179; 181; 191; 193; 197; 199;
    211; 223; 227; 229; 233; 239; 241; 251; 257; 263; 269; 271; 277; 281;
    283; 293; 307; 311 ].

(** The integer cube root of a number below [2 ^ 108], bit by bit. *)
Definition cube_root (n : Z) : Z :=
  fold_left (fun r b => let c := r + 2 ^ b in
                        if c * c * c <=? n then c else r)
    (map Z.of_nat (rev (seq 0 36))) 0.

(** The round constants: the first 32 bits of the fractional parts of
    the cube roots of the primes. *)
Definition K : list Z :=
  map (fun p => w32 (cube_root (Z.shiftl p 96))) primes.

(** The initial hash value: the same of the square roots of the first
    eight primes. *)
Definition H0 : list Z :=
  map (fun p => w32 (Z.sqrt (Z.shiftl p 64))) (firstn 8 primes).

(** [n] as [k] big-endian bytes. *)
Fixpoint be_bytes (k : nat) (n : Z) : list Z :=
  match k with
  | O => []
  | S k' => Z.land (Z.shiftr n (8 * Z.of_nat k')) 0xff :: be_bytes k' n
  end.

(** The message, a 1 bit, zeros up to 56 modulo 64, and the bit length. *)
Definition pad (msg : list Z) : list Z :=
  let len := Z.of_nat (List.length msg) in
  let zeros := Z.to_nat ((55 - len) mod 64) in
  msg ++ [0x80] ++ repeat 0 zeros ++ be_bytes 8 (8 * len).

Fixpoint be_words (n : nat) (bytes : list Z) : list Z :=
  match n with
  | O => []
  | S n' =>
      match bytes with
      | a :: b :: c :: d :: rest =>
          Z.lor (Z.shiftl a 24) (Z.lor (Z.shiftl b 16) (Z.lor (Z.shiftl c 8) d))
          :: be_words n' rest
      | _ => []
      end
  end.

(** The schedule, newest word first: [W t = sigma1 (W (t-2)) + W (t-7)
    + sigma0 (W (t-15)) + W (t-16)]. *)
Fixpoint extend (n : nat) (rev_w : list Z) : list Z :=
  match n with
  | O => rev_w
  | S n' =>
      let w := add32 (add32 (sigma1 (nth 1 rev_w 0)) (nth 6 rev_w 0))
                     (add32 (sigma0 (nth 14 rev_w 0)) (nth 15 rev_w 0)) in
      extend n' (w :: rev_w)
  end.

Definition schedule (block : list Z) : list Z :=
  rev (extend 48 (rev (be_words 16 block))).

Definition round (st : list Z) (kw : Z * Z) : list Z :=
  match st with
  | [a; b; c; d; e; f; g; h] =>
      let t1 := add32 (add32 (add32 h (Sigma1 e)) (Ch e f g))
                      (add32 (fst kw) (snd kw)) in
      let t2 := add32 (Sigma0 a) (Maj a b c) in
      [add32 t1 t2; a; b; c; add32 d t1; e; f; g]
  | _ => st
  end.

Definition compress (h : list Z) (block : list Z) : list Z :=
  map (fun p => add32 (fst p) (snd p))
    (combine h (fold_left round (combine K (schedule block)) h)).

Fixpoint blocks (n : nat) (h : list Z) (bytes : list Z) : list Z :=
  match n with
  | O => h
  | S n' => blocks n' (compress h (firstn 64 bytes)) (skipn 64 bytes)
  end.

Definition digest (msg : list Z) : list Z :=
  let padded := pad msg in
  blocks (Nat.div (List.length padded) 64) H0 padded.

Definition hex_digit (n : Z) : ascii :=
  if n <? 10 then ascii_of_nat (48 + Z.to_nat n)
  else ascii_of_nat (87 + Z.to_nat n).

Fixpoint hex_word (k : nat) (w : Z) : str :=
  match k with
  | O => []
  | S k' => hex_digit (Z.land (Z.shiftr w (4 * Z.of_nat k')) 0xf) :: hex_word k' w
  end.

(** [hashlib.sha256(msg).hexdigest()] *)
Definition hexdigest (msg : list Z) : str :=
  flat_map (hex_word 8) (digest msg).

End Sha256.

(** [s.encode()]: UTF-8, for code points below 256. *)
Definition encode (s : str) : list Z :=
  flat_map (fun c =>
              let n := Z.of_nat (nat_of_ascii c) in
              if (n <? 128)%Z then [n]
              else [Z.lor 0xc0 (Z.shiftr n 6); Z.lor 0x80 (Z.land n 0x3f)]) s.

(** ** The status fingerprint

    [rev_parse] and [diff] are the outputs of [git rev-parse HEAD] and of
    [git diff]. *)




(** ** The collaborators and inputs of the examples *)

(** [strptime_date] on the timestamps [git log] prints for [%ai], the
    fixed-width [YYYY-MM-DD HH:MM:SS +HHMM].  Other spellings that
    [strptime] accepts (one-digit fields, a colon in the offset) are
    refused here; the general statements below hold for any
    [strptime_date]. *)
Module Strptime.
Open Scope Z_scope.

Definition digit (c : ascii) : option Z :=
  let n := Z.of_nat (nat_of_ascii c) in
  if (48 <=? n) && (n <=? 57) then Some (n - 48) else None.

Definition num2 (a b : ascii) : option Z :=
  match digit a, digit b with
  | Some x, Some y => Some (10 * x + y)
  | _, _ => None
  end.

Definition is_chr (n : nat) (c : ascii) : bool := Nat.eqb (nat_of_ascii c) n.

Definition below (bound : Z) (o : option Z) : bool :=
  match o with Some n => n <? bound | None => false end.

Definition ai (s : str) : option date :=
  match s with
  | [y1; y2; y3; y4; p1; m1; m2; p2; d1; d2; p3; h1; h2; p4; n1; n2; p5;
     s1; s2; p6; sg; zh1; zh2; zm1; zm2] =>
      match num2 y1 y2, num2 y3 y4, num2 m1 m2, num2 d1 d2 with
      | Some yh, Some yl, Some m, Some d =>
          if is_chr 45 p1 && is_chr 45 p2 && is_chr 32 p3 && is_chr 58 p4 && is_chr 58 p5
             && is_chr 32 p6 && (is_chr 43 sg || is_chr 45 sg)
             && below 24 (num2 h1 h2) && below 60 (num2 n1 n2)
             && below 60 (num2 s1 s2)
             && below 24 (num2 zh1 zh2) && below 60 (num2 zm1 zm2)
          then PyDate.of_ymd (100 * yh + yl) m d else None
      | _, _, _, _ => None
      end
  | _ => None
  end.

End Strptime.

(** Python files are supported; an ignore pattern without wildcard matches
    the one-component path it spells. *)
#[local] Instance sample_collaborators : Collaborators := {
  strptime_date := Strptime.ai;
  is_file_type_supported := PyStr.endswith ".py";
  path_match := PyStr.eqb;
  path_join := fun a b => a ++ "/" ++ b
}.

(** Floats read as real numbers: rounding, overflow and the special
    values are left out.  [sum] adds from the left, starting at [0]. *)
#[local] Instance real_float : PyFloat := {
  float := R;
  lit_0_01 := 0.01%R;
  fneg := Ropp;
  float_of_int := IZR;
  fmul := Rmult;
  fexp := exp;
  fsum := fun l => fold_left Rplus l 0%R;
  fltb := fun x y => if Rlt_dec x y then true else false
}.

(** The snapshot-listing tool, [git ls-tree HEAD -- paths]: one line
    [<mode> <type> <identity>TAB<path>] for each entry of the snapshot
    that is one of [paths], in the order of the snapshot. *)
Record tree_entry : Type := mkentry {
  e_mode : str;
  e_type : str;
  e_id : str;
  e_path : str
}.

Definition listing_line (e : tree_entry) : str :=
  e_mode e ++ " " ++ e_type e ++ " " ++ e_id e ++ [PyStr.tab] ++ e_path e.

Definition git_ls_tree (head : list tree_entry) (paths : list str) : str :=
  flat_map (fun e => listing_line e ++ [PyStr.newline])
    (filter (fun e => existsb (PyStr.eqb (e_path e)) paths) head).

(** ** Inputs of the examples *)

(** A line as [readline] returns it. *)
Definition ln (s : str) : str := s ++ [PyStr.newline].


Definition d2024_01_15 : date := PyDate.mkdate 2024 1 15 eq_refl.
Definition d2024_01_20 : date := PyDate.mkdate 2024 1 20 eq_refl.
Definition d2024_06_01 : date := PyDate.mkdate 2024 6 1 eq_refl.



(** Three commits to [a.py], read on 1 June 2024: 0, 69 and 138 days old. *)
Definition three_commits_log : list str :=
  [ ln "###c3c3c3c:::2024-06-01 09:00:00 +0000:::Jane Doe <j@example.com>:::Third";
    ln "a.py";
    ln "";
    ln "###b2b2b2b:::2024-03-24 09:00:00 +0000:::Jane Doe <j@example.com>:::Second";
    ln "a.py";
    ln "README.txt";
    ln "";
    ln "###a1a1a1a:::2024-01-15 09:00:00 +0000:::Jane Doe <j@example.com>:::First";
    ln "a.py";
    ln "secret.py";
    ln "gone.py" ].

Definition three_commits : list commit_info :=
  [ mkcommit "###c3c3c3c" 0 "Jane Doe <j@example.com>" "Third";
    mkcommit "###b2b2b2b" 69 "Jane Doe <j@example.com>" "Second";
    mkcommit "###a1a1a1a" 138 "Jane Doe <j@example.com>" "First" ].

Definition sample_repo : Repository (F := real_float) :=
  init "/repo" (mkconfig ["secret.py" : str] None).

Definition sample_rg_files : str :=
  ln "a.py" ++ ln "README.txt" ++ ln "secret.py".

(** The state [analyze_files] leaves on [three_commits_log]. *)
Definition sample_analyzed : Repository (F := real_float) :=
  mkrepo real_float "/repo" (mkconfig ["secret.py" : str] None)
    [("a.py" : str, map Some three_commits)]
    [("a.py" : str,
      (0 + exp (- (0.01) * 0) + exp (- (0.01) * 69) + exp (- (0.01) * 138))%R)].

(** The snapshot of the examples: two Python files. *)
Definition sample_head : list tree_entry :=
  [ mkentry "100644" "blob" "8c7e5a667f1b771847fe88c01c3de34413a1b220" "a.py";
    mkentry "100644" "blob" "257cc5642cb1a054f08cc83f2d943e56fd3ebe99" "b.py" ].

(** ** Predicates of the statements *)

(** The three filters of [analyze_files] on a path. *)
Definition passes_filters `{C : Collaborators} `{F : PyFloat}
  (self : Repository) (files : list str) (filename : str) : Prop :=
  is_file_type_supported filename = true
  /\ _is_file_ignored self filename = false
  /\ In filename files.

(** What the loop of [analyze_files] maintains about [self.file_changes]:
    distinct keys, each satisfying [P], each with at least one entry. *)
Definition index_inv (P : str -> Prop)
  (changes : Dict.t (list (option commit_info))) : Prop :=
  NoDup (Dict.keys changes)
  /\ (forall k, In k (Dict.keys changes) -> P k)
  /\ (forall k l, Dict.get changes k = Some l -> l <> []).







(** In a ranking, [a] may come before [b]: its score is not the smaller. *)
Definition not_below `{F : PyFloat} {A : Type} (a b : A * float) : Prop :=
  fltb (snd a) (snd b) = false.

(** What [top_files] puts in an entry [(GitFile, score)], for the file
    [gf_path]: its score, its identity, its path under the repository and
    the subjects of its records, in the order of the change index. *)
Definition entry_of `{C : Collaborators} `{F : PyFloat} (self : Repository)
  (ids : Dict.t str) (r : GitFile * float) : Prop :=
  Dict.get (frecency_scores self) (gf_path (fst r)) = Some (snd r)
  /\ gf_score (fst r) = snd r
  /\ Dict.get ids (gf_path (fst r)) = Some (gf_object_id (fst r))
  /\ gf_absolute_path (fst r) = path_join (path self) (gf_path (fst r))
  /\ exists records : list commit_info,
       Dict.get (file_changes self) (gf_path (fst r)) = Some (map Some records)
       /\ gf_commit_messages (fst r) = map commit_subject records.

(** ** The rest of the repository *)




(** ** More predicates of the statements *)

(** The test of the first branch of the loop of [analyze_files]. *)
Definition is_header_line (raw : str) : bool :=
  PyStr.contains ":::" (PyStr.strip raw).

(** The lines on which the loop of [analyze_files] appends to the index. *)
Definition is_accepted_path `{C : Collaborators} `{F : PyFloat}
  (self : Repository) (files : list str) (raw : str) : bool :=
  negb (is_header_line raw)
  && negb (PyStr.eqb (PyStr.strip raw) [])
  && negb (negb (is_file_type_supported (PyStr.strip raw))
           || _is_file_ignored self (PyStr.strip raw)
           || negb (existsb (PyStr.eqb (PyStr.strip raw)) files)).



(** [c] is what the parser returns for a header line among [log]. *)
Definition header_record `{C : Collaborators} (today : date) (log : list str)
  (c : commit_info) : Prop :=
  exists raw, In raw log /\ is_header_line raw = true
              /\ parse_commit_info today (PyStr.strip raw) = Ok c.


(** Neither score is below the other. *)
Definition tied `{F : PyFloat} (a b : float) : bool :=
  negb (fltb a b) && negb (fltb b a).


(** * Properties *)

Module DateFacts.
Import PyDate.
Open Scope Z_scope.

Lemma days_before_year_succ y :
  days_before_year (y + 1) = days_before_year y + 365 + leap_day y.
Proof.
  unfold days_before_year, leap_day, is_leap.
  replace (y + 1 - 1) with (y - 1 + 1) by lia.
  destruct (y mod 4 =? 0) eqn:E4; destruct (y mod 100 =? 0) eqn:E100;
    destruct (y mod 400 =? 0) eqn:E400; cbn [andb orb negb];
    rewrite ?Z.eqb_eq, ?Z.eqb_neq in *;
    Z.to_euclidean_division_equations; lia.
Qed.

Lemma days_before_year_mono y1 y2 :
  y1 <= y2 -> days_before_year y1 <= days_before_year y2.
Proof.
  unfold days_before_year. intros.
  Z.to_euclidean_division_equations; lia.
Qed.

Lemma month_cases m :
  1 <= m <= 12 ->
  m = 1 \/ m = 2 \/ m = 3 \/ m = 4 \/ m = 5 \/ m = 6 \/ m = 7 \/ m = 8
  \/ m = 9 \/ m = 10 \/ m = 11 \/ m = 12.
Proof. lia. Qed.

Ltac each_month H :=
  destruct (month_cases _ H) as
    [->|[->|[->|[->|[->|[->|[->|[->|[->|[->|[->| ->]]]]]]]]]]].

(** Once the month and the leap flag are known, the days before the
    month are a number. *)
Ltac months_by_table y :=
  unfold days_before_month, days_in_month in *; cbn [Z.eqb Pos.eqb orb] in *;
  destruct (is_leap y);
  repeat match goal with
    | |- context [fold_right Z.add 0 ?l] =>
        let v := eval vm_compute in (fold_right Z.add 0 l) in
        change (fold_right Z.add 0 l) with v
    end.

Lemma valid_ymd_bounds y m d :
  valid_ymd y m d = true ->
  1 <= y <= 9999 /\ 1 <= m <= 12 /\ 1 <= d <= days_in_month y m.
Proof.
  unfold valid_ymd. rewrite !andb_true_iff, !Z.leb_le. lia.
Qed.

Lemma day_of_year_bounds y m d :
  1 <= m <= 12 -> 1 <= d <= days_in_month y m ->
  1 <= days_before_month y m + d <= 365 + leap_day y.
Proof.
  intros Hm Hd. unfold leap_day.
  each_month Hm; months_by_table y; lia.
Qed.

Lemma day_of_year_month_lt y m1 d1 m2 d2 :
  1 <= m1 <= 12 -> 1 <= d1 <= days_in_month y m1 ->
  1 <= m2 <= 12 -> 1 <= d2 <= days_in_month y m2 ->
  m1 < m2 ->
  days_before_month y m1 + d1 < days_before_month y m2 + d2.
Proof.
  intros Hm1 Hd1 Hm2 Hd2 Hlt.
  each_month Hm1; each_month Hm2; try lia; months_by_table y; lia.
Qed.

Lemma toordinal_leb a b :
  toordinal a <= toordinal b <-> leb a b = true.
Proof.
  destruct a as [ya ma da Va], b as [yb mb db Vb].
  unfold toordinal, leb; cbn [year month day].
  apply valid_ymd_bounds in Va, Vb.
  destruct Va as (Hya & Hma & Hda), Vb as (Hyb & Hmb & Hdb).
  pose proof (day_of_year_bounds ya ma da Hma Hda) as Ba.
  pose proof (day_of_year_bounds yb mb db Hmb Hdb) as Bb.
  repeat (rewrite orb_true_iff || rewrite andb_true_iff).
  rewrite !Z.ltb_lt, !Z.eqb_eq, Z.leb_le.
  destruct (Z.lt_trichotomy ya yb) as [Hy | [Hy | Hy]].
  - pose proof (days_before_year_succ ya).
    pose proof (days_before_year_mono (ya + 1) yb ltac:(lia)). lia.
  - subst yb.
    destruct (Z.lt_trichotomy ma mb) as [Hm | [Hm | Hm]].
    + pose proof (day_of_year_month_lt ya ma da mb db Hma Hda Hmb Hdb Hm). lia.
    + subst mb. lia.
    + pose proof (day_of_year_month_lt ya mb db ma da Hmb Hdb Hma Hda Hm). lia.
  - pose proof (days_before_year_succ yb).
    pose proof (days_before_year_mono (yb + 1) ya ltac:(lia)). lia.
Qed.
End DateFacts.

Module StrFacts.
Import PyStr.

Lemma eqb_eq (a b : str) : eqb a b = true <-> a = b.
Proof.
  unfold eqb. destruct (list_eq_dec ascii_dec a b); split; congruence.
Qed.

Lemma eqb_refl (a : str) : eqb a a = true.
Proof. now apply eqb_eq. Qed.

Lemma eqb_neq (a b : str) : eqb a b = false <-> a <> b.
Proof.
  unfold eqb. destruct (list_eq_dec ascii_dec a b); split; congruence.
Qed.

Lemma startswith_iff (p s : str) :
  startswith p s = true <-> exists r, s = p ++ r.
Proof.
  revert s. induction p as [|a p IH]; intros s; cbn.
  - split; eauto.
  - destruct s as [|b s].
    + split; [discriminate | intros (r & Hr); discriminate].
    + rewrite andb_true_iff, Ascii.eqb_eq, IH. split.
      * intros (-> & r & ->). eauto.
      * intros (r & Hr). injection Hr as -> ->. eauto.
Qed.






Lemma endswith1_cons (x c : ascii) (s : str) :
  s <> [] -> endswith [x] (c :: s) = endswith [x] s.
Proof.
  intros Hs. unfold endswith. cbn [rev app].
  destruct (rev s) as [|d r] eqn:E.
  - apply (f_equal (@rev ascii)) in E. rewrite rev_involutive in E.
    now cbn in E.
  - reflexivity.
Qed.

Lemma cut_delim (h rest : str) :
  contains ":::" h = false -> endswith ":" h = false ->
  cut ":::" (h ++ ":::" ++ rest) = Some (h, rest).
Proof.
  change (list_ascii_of_string ":") with [":"%char].
  induction h as [|c h IH]; intros Hc He; [reflexivity|].
  assert (Hc' : contains ":::" h = false).
  { cbn [contains] in Hc. now apply orb_false_iff in Hc. }
  assert (He' : endswith ":" h = false).
  { destruct h; [reflexivity|]. now rewrite endswith1_cons in He. }
  assert (Hs : startswith ":::" (c :: h) = false).
  { cbn [contains] in Hc. now apply orb_false_iff in Hc. }
  assert (Hs' : startswith ":::" ((c :: h) ++ ":::" ++ rest) = false).
  { destruct h as [|d [|e h]].
    - cbn in He |- *. now rewrite andb_true_r in *.
    - rewrite endswith1_cons in He by discriminate.
      cbn in He |- *. rewrite andb_true_r in *.
      rewrite He. apply andb_false_r.
    - exact Hs. }
  cbn [app] in Hs' |- *. cbn [cut]. rewrite Hs', (IH Hc' He'). reflexivity.
Qed.

Lemma split_length (sep : str) (n : nat) (s : str) :
  List.length (split sep n s) <= S n.
Proof.
  revert s. induction n as [|n IH]; intros s; cbn; [lia|].
  destruct (cut sep s) as [[before after]|]; cbn; [|lia].
  specialize (IH after). lia.
Qed.

End StrFacts.

Section Parser.
Context `{C : Collaborators}.

Lemma split_fields (h d a s : str) :
  PyStr.contains ":::" h = false -> PyStr.endswith ":" h = false ->
  PyStr.contains ":::" d = false -> PyStr.endswith ":" d = false ->
  PyStr.contains ":::" a = false -> PyStr.endswith ":" a = false ->
  PyStr.split ":::" 3 (h ++ ":::" ++ d ++ ":::" ++ a ++ ":::" ++ s)
  = [h; d; a; s].
Proof.
  intros Hh Hh' Hd Hd' Ha Ha'. cbn [PyStr.split].
  rewrite (StrFacts.cut_delim h _ Hh Hh').
  rewrite (StrFacts.cut_delim d _ Hd Hd').
  rewrite (StrFacts.cut_delim a _ Ha Ha'). reflexivity.
Qed.

Lemma parse_of_pieces (today : date) (line h d a s : str) :
  PyStr.split ":::" 3 line = [h; d; a; s] ->
  parse_commit_info today line =
    match strptime_date d with
    | Some cd => Ok (mkcommit h (PyDate.days_between today cd) a s)
    | None => Raise ValueError_strptime
    end.
Proof. intros E. unfold parse_commit_info. now rewrite E. Qed.

Lemma parse_unpack_error (today : date) (line : str) :
  (exists n, parse_commit_info today line = Raise (ValueError_unpack 4 n))
  <-> List.length (PyStr.split ":::" 3 line) <> 4.
Proof.
  unfold parse_commit_info.
  destruct (PyStr.split ":::" 3 line) as [|p0 [|p1 [|p2 [|p3 [|p4 l]]]]];
    cbn [List.length]; try (split; [intros _; lia | intros _; eauto]).
  destruct (strptime_date p1); split;
    try (intros (n & H); discriminate); intros H; now elim H.
Qed.

Lemma parse_ok_inv (today : date) (line : str) (c : commit_info) :
  parse_commit_info today line = Ok c ->
  exists h d a s cd,
    PyStr.split ":::" 3 line = [h; d; a; s] /\ strptime_date d = Some cd /\
    c = mkcommit h (PyDate.days_between today cd) a s.
Proof.
  unfold parse_commit_info.
  destruct (PyStr.split ":::" 3 line) as [|p0 [|p1 [|p2 [|p3 [|p4 l]]]]];
    try discriminate.
  destruct (strptime_date p1) as [cd|] eqn:E; [|discriminate].
  intros H. injection H as <-. exists p0, p1, p2, p3, cd. auto.
Qed.

End Parser.

(** C4, as stated, fails: the hash field [a:] contains no delimiter, and
    the split takes its colon for the start of the delimiter, so the hash
    comes out as [a] and the date field as [:2024-01-15 ...]. *)
Lemma C4_counterexample :
  PyStr.contains ":::" "a:" = false /\
  PyStr.contains ":::" "2024-01-15 10:00:00 +0000" = false /\
  PyStr.contains ":::" "Jane Doe <j@example.com>" = false /\
  PyStr.split ":::" 3
    ("a:" ++ ":::" ++ "2024-01-15 10:00:00 +0000" ++ ":::"
      ++ "Jane Doe <j@example.com>" ++ ":::" ++ "Fix bug")
  = ["a" : str; ":2024-01-15 10:00:00 +0000" : str;
     "Jane Doe <j@example.com>" : str; "Fix bug" : str] /\
  parse_commit_info (C := sample_collaborators) d2024_01_20
    ("a:" ++ ":::" ++ "2024-01-15 10:00:00 +0000" ++ ":::"
      ++ "Jane Doe <j@example.com>" ++ ":::" ++ "Fix bug")
  = Raise ValueError_strptime.
Proof. vm_compute. repeat split. Qed.

(** C4, amended: the bounded split of a header whose hash, date and author
    fields contain no delimiter and do not end with a colon returns the
    four fields, the subject being the whole remainder whatever it
    contains; the split never yields more than four pieces; and the parser
    raises the unpacking error exactly when the pieces are not four. *)
Theorem C4_bounded_split `{C : Collaborators} :
  (forall (today : date) (h d a s : str),
      PyStr.contains ":::" h = false -> PyStr.endswith ":" h = false ->
      PyStr.contains ":::" d = false -> PyStr.endswith ":" d = false ->
      PyStr.contains ":::" a = false -> PyStr.endswith ":" a = false ->
      PyStr.split ":::" 3 (h ++ ":::" ++ d ++ ":::" ++ a ++ ":::" ++ s)
      = [h; d; a; s] /\
      parse_commit_info today (h ++ ":::" ++ d ++ ":::" ++ a ++ ":::" ++ s) =
        match strptime_date d with
        | Some cd => Ok (mkcommit h (PyDate.days_between today cd) a s)
        | None => Raise ValueError_strptime
        end)
  /\ (forall (today cd : date),
         strptime_date "2024-01-15 10:00:00 +0000" = Some cd ->
         parse_commit_info today
           "abc123:::2024-01-15 10:00:00 +0000:::Jane Doe <j@example.com>:::Fix bug: edge case"
         = Ok (mkcommit "abc123" (PyDate.days_between today cd)
                 "Jane Doe <j@example.com>" "Fix bug: edge case"))
  /\ (forall (today : date) (line : str),
         List.length (PyStr.split ":::" 3 line) <= 4 /\
         ((exists n, parse_commit_info today line = Raise (ValueError_unpack 4 n))
          <-> List.length (PyStr.split ":::" 3 line) <> 4)).
Proof.
  split; [|split].
  - intros today h d a s Hh Hh' Hd Hd' Ha Ha'.
    pose proof (split_fields h d a s Hh Hh' Hd Hd' Ha Ha') as E.
    split; [exact E | now apply parse_of_pieces].
  - intros today cd E.
    rewrite (parse_of_pieces today _ "abc123" "2024-01-15 10:00:00 +0000"
               "Jane Doe <j@example.com>" "Fix bug: edge case") by reflexivity.
    now rewrite E.
  - intros today line. split;
      [apply StrFacts.split_length | apply parse_unpack_error].
Qed.

Lemma C4_witness :
  PyStr.split ":::" 3
    ("abc123" ++ ":::" ++ "2024-01-15 10:00:00 +0000" ++ ":::"
       ++ "Jane Doe <j@example.com>" ++ ":::" ++ "Fix:::bug")
  = ["abc123" : str; "2024-01-15 10:00:00 +0000" : str;
     "Jane Doe <j@example.com>" : str; "Fix:::bug" : str]
  /\ parse_commit_info (C := sample_collaborators) d2024_01_20
       "abc123:::2024-01-15 10:00:00 +0000:::Jane Doe <j@example.com>:::Fix bug: edge case"
     = Ok (mkcommit "abc123" 5 "Jane Doe <j@example.com>" "Fix bug: edge case").
Proof.
  destruct (C4_bounded_split (C := sample_collaborators)) as (H1 & H2 & _).
  split.
  - exact (proj1 (H1 d2024_01_20 "abc123" "2024-01-15 10:00:00 +0000"
                    "Jane Doe <j@example.com>" "Fix:::bug"
                    eq_refl eq_refl eq_refl eq_refl eq_refl eq_refl)).
  - exact (H2 d2024_01_20 d2024_01_15 eq_refl).
Defined.

(** C3, as stated, fails: a commit made on 16 January in a zone fourteen
    hours ahead, read while the local date is still 15 January, has age
    [-1]. *)
Lemma C3_counterexample :
  parse_commit_info (C := sample_collaborators) d2024_01_15
    "###abc123:::2024-01-16 01:00:00 +1400:::Jane Doe <j@example.com>:::Fix"
  = Ok (mkcommit "###abc123" (-1) "Jane Doe <j@example.com>" "Fix").
Proof. vm_compute. reflexivity. Qed.

(** C3, amended: the age of a parsed record is the signed number of days
    from the calendar date written in the header, taken in the header's
    own offset, to today; it is non-negative exactly when that date is not
    after today. *)
Theorem C3_age_is_signed_day_count `{C : Collaborators}
  (today : date) (line : str) (c : commit_info) :
  parse_commit_info today line = Ok c ->
  exists (date_str : str) (commit_date : date),
    nth_error (PyStr.split ":::" 3 line) 1 = Some date_str /\
    strptime_date date_str = Some commit_date /\
    days_passed c = (PyDate.toordinal today - PyDate.toordinal commit_date)%Z /\
    ((0 <= days_passed c)%Z <-> PyDate.leb commit_date today = true).
Proof.
  intros H. apply parse_ok_inv in H.
  destruct H as (h & d & a & s & cd & E & P & ->).
  exists d, cd. rewrite E. cbn [nth_error days_passed].
  unfold PyDate.days_between. repeat split; auto.
  - intros Hle. apply DateFacts.toordinal_leb. lia.
  - intros Hle. apply DateFacts.toordinal_leb in Hle. lia.
Qed.

Lemma C3_witness :
  exists (date_str : str) (commit_date : date),
    nth_error (PyStr.split ":::" 3
      "abc123:::2024-01-15 10:00:00 +0000:::Jane Doe <j@example.com>:::Fix bug: edge case") 1
      = Some date_str /\
    Strptime.ai date_str = Some commit_date /\
    5%Z = (PyDate.toordinal d2024_01_20 - PyDate.toordinal commit_date)%Z /\
    ((0 <= 5)%Z <-> PyDate.leb commit_date d2024_01_20 = true).
Proof.
  exact (C3_age_is_signed_day_count (C := sample_collaborators) d2024_01_20
           "abc123:::2024-01-15 10:00:00 +0000:::Jane Doe <j@example.com>:::Fix bug: edge case"
           (mkcommit "abc123" 5 "Jane Doe <j@example.com>" "Fix bug: edge case")
           eq_refl).
Defined.

Module ExpBounds.
Open Scope R_scope.








End ExpBounds.

Module DictFacts.
Import Dict.

Section Facts.
Context {V : Type}.
Implicit Types (d : t V) (k : str) (v : V).

Lemma get_set_same d k v : get (set d k v) k = Some v.
Proof.
  induction d as [|[k' v'] d IH]; cbn.
  - now rewrite StrFacts.eqb_refl.
  - destruct (PyStr.eqb k k') eqn:E; cbn; rewrite E; auto.
Qed.

Lemma get_set_other d k k' v :
  k <> k' -> get (set d k v) k' = get d k'.
Proof.
  intros Hne. induction d as [|[k0 v0] d IH]; cbn.
  - apply StrFacts.eqb_neq in Hne.
    destruct (PyStr.eqb k' k) eqn:E; [|reflexivity].
    apply StrFacts.eqb_eq in E. subst. now rewrite StrFacts.eqb_refl in Hne.
  - destruct (PyStr.eqb k k0) eqn:E; cbn.
    + apply StrFacts.eqb_eq in E. subst k0.
      destruct (PyStr.eqb k' k) eqn:E'; [|reflexivity].
      apply StrFacts.eqb_eq in E'. congruence.
    + now rewrite IH.
Qed.

Lemma get_None d k : get d k = None <-> ~ In k (keys d).
Proof.
  induction d as [|[k' v'] d IH]; cbn; [tauto|].
  destruct (PyStr.eqb k k') eqn:E.
  - apply StrFacts.eqb_eq in E. subst. split; [discriminate | tauto].
  - apply StrFacts.eqb_neq in E. rewrite IH. split; [|tauto].
    intros H [H'|H']; [congruence | tauto].
Qed.

Lemma get_Some_In d k v : get d k = Some v -> In k (keys d).
Proof.
  intros H. destruct (in_dec (list_eq_dec ascii_dec) k (keys d)) as [Hin|Hn];
    [exact Hin|]. apply get_None in Hn. congruence.
Qed.

Lemma mem_In d k : mem d k = true <-> In k (keys d).
Proof.
  unfold mem. destruct (get d k) eqn:E.
  - split; [intros _; eapply get_Some_In; eauto | reflexivity].
  - split; [discriminate | intros H; now apply get_None in E].
Qed.

Lemma In_keys_set d k v k' :
  In k' (keys (set d k v)) <-> k' = k \/ In k' (keys d).
Proof.
  induction d as [|[k0 v0] d IH]; cbn.
  - intuition congruence.
  - destruct (PyStr.eqb k k0) eqn:E; cbn.
    + apply StrFacts.eqb_eq in E. subst. intuition congruence.
    + rewrite IH. intuition congruence.
Qed.

Lemma NoDup_set d k v : NoDup (keys d) -> NoDup (keys (set d k v)).
Proof.
  induction d as [|[k0 v0] d IH]; cbn; intros H.
  - constructor; [intros []|constructor].
  - inversion H as [|? ? Hn Hd]; subst.
    destruct (PyStr.eqb k k0) eqn:E; cbn.
    + now constructor.
    + constructor; [|now apply IH].
      intros Hin. apply In_keys_set in Hin. destruct Hin as [->|Hin]; [|tauto].
      now rewrite StrFacts.eqb_refl in E.
Qed.
End Facts.

Section Lists.
Context {V : Type}.
Implicit Types (d : t (list V)) (k : str) (v : V).

Lemma In_keys_append d k v k' :
  In k' (keys (append d k v)) <-> k' = k \/ In k' (keys d).
Proof.
  unfold append, get_default. destruct (get d k) eqn:E;
    rewrite !In_keys_set; tauto.
Qed.

Lemma NoDup_append d k v : NoDup (keys d) -> NoDup (keys (append d k v)).
Proof.
  unfold append, get_default. intros H.
  destruct (get d k); auto using NoDup_set.
Qed.

Lemma get_append_same d k v :
  exists l, get (append d k v) k = Some (l ++ [v]).
Proof.
  unfold append, get_default.
  destruct (get d k) as [l|]; eexists; apply get_set_same.
Qed.

Lemma get_append_other d k v k' :
  k <> k' -> get (append d k v) k' = get d k'.
Proof.
  intros Hne. unfold append, get_default.
  destruct (get d k); now rewrite !get_set_other.
Qed.
End Lists.

End DictFacts.

Section Builder.
Context `{C : Collaborators} `{F : PyFloat}.
Variables (self : Repository) (today : date) (files : list str).

Lemma filters_spec (filename : str) :
  negb (is_file_type_supported filename) || _is_file_ignored self filename
  || negb (existsb (PyStr.eqb filename) files) = false
  <-> passes_filters self files filename.
Proof.
  unfold passes_filters.
  rewrite !orb_false_iff, !negb_false_iff, existsb_exists. split.
  - intros ((Hs & Hi) & x & Hx & E). apply StrFacts.eqb_eq in E. subst. auto.
  - intros (Hs & Hi & Hin). repeat split; auto.
    exists filename. split; [exact Hin | apply StrFacts.eqb_refl].
Qed.

Lemma analyze_line_cases (cur : option commit_info)
  (changes : Dict.t (list (option commit_info))) (raw : str) :
  (PyStr.contains ":::" (PyStr.strip raw) = true /\
   analyze_line self today files (cur, changes) raw
   = (c <- parse_commit_info today (PyStr.strip raw) ;; Ok (Some c, changes)))
  \/ (PyStr.contains ":::" (PyStr.strip raw) = false /\ PyStr.strip raw <> [] /\
      analyze_line self today files (cur, changes) raw
      = Ok (cur,
            if negb (is_file_type_supported (PyStr.strip raw))
               || _is_file_ignored self (PyStr.strip raw)
               || negb (existsb (PyStr.eqb (PyStr.strip raw)) files)
            then changes
            else Dict.append changes (PyStr.strip raw) cur))
  \/ (PyStr.strip raw = [] /\
      analyze_line self today files (cur, changes) raw = Ok (cur, changes)).
Proof.
  unfold analyze_line.
  destruct (PyStr.contains ":::" (PyStr.strip raw)) eqn:E; [left; auto|].
  destruct (PyStr.strip raw) as [|c l] eqn:E'; [right; right; auto|].
  right; left. repeat split; [discriminate|].
  now destruct (negb _ || _ || negb _).
Qed.

Lemma analyze_line_inv (st st' : loop_state) (raw : str) :
  index_inv (passes_filters self files) (snd st) ->
  analyze_line self today files st raw = Ok st' ->
  index_inv (passes_filters self files) (snd st').
Proof.
  destruct st as [cur changes]. cbn [snd]. intros Hinv H.
  destruct (analyze_line_cases cur changes raw)
    as [(_ & E) | [(_ & Hne & E) | (_ & E)]]; rewrite E in H; clear E.
  - destruct (parse_commit_info today (PyStr.strip raw)); [|discriminate].
    cbn in H. injection H as <-. exact Hinv.
  - injection H as <-. cbn [snd].
    destruct (negb _ || _ || negb _) eqn:Efilt; [exact Hinv|].
    apply filters_spec in Efilt.
    destruct Hinv as (Hnd & HP & Hne').
    split; [now apply DictFacts.NoDup_append|]. split.
    + intros k Hk. apply DictFacts.In_keys_append in Hk.
      destruct Hk as [->|Hk]; auto.
    + intros k l Hl.
      destruct (list_eq_dec ascii_dec (PyStr.strip raw) k) as [<-|Hk].
      * destruct (DictFacts.get_append_same changes (PyStr.strip raw) cur)
          as (l0 & E0).
        rewrite E0 in Hl. injection Hl as <-. now destruct l0.
      * rewrite DictFacts.get_append_other in Hl by exact Hk. eauto.
  - injection H as <-. exact Hinv.
Qed.

Lemma analyze_lines_inv (log : list str) (st st' : loop_state) :
  index_inv (passes_filters self files) (snd st) ->
  analyze_lines self today files st log = Ok st' ->
  index_inv (passes_filters self files) (snd st').
Proof.
  revert st. induction log as [|raw log IH]; intros st Hinv H; cbn in H.
  - now injection H as <-.
  - destruct (analyze_line self today files st raw) as [st1|] eqn:E;
      [|discriminate].
    cbn in H. eapply IH; [|exact H]. eapply analyze_line_inv; eauto.
Qed.

Lemma index_inv_empty : index_inv (passes_filters self files) Dict.empty.
Proof.
  split; [constructor|]. split; [intros k []|discriminate].
Qed.

End Builder.

Section Scorer.
Context `{F : PyFloat}.

Lemma decays_inv (commits : list (option commit_info)) (ds : list float) :
  decays commits = Ok ds ->
  exists records,
    commits = map Some records
    /\ ds = map (fun c => decay (days_passed c)) records.
Proof.
  revert ds. induction commits as [|[c|] commits IH]; intros ds H; cbn in H.
  - injection H as <-. now exists [].
  - destruct (decays commits) as [ds'|]; [|discriminate].
    cbn in H. injection H as <-.
    destruct (IH ds' eq_refl) as (records & -> & ->).
    now exists (c :: records).
  - discriminate.
Qed.


Lemma compute_scores_get (items : Dict.t (list (option commit_info)))
  (acc scores : Dict.t float) :
  compute_scores items acc = Ok scores ->
  NoDup (Dict.keys items) ->
  forall f,
    match Dict.get items f with
    | Some commits =>
        exists ds, decays commits = Ok ds /\ Dict.get scores f = Some (fsum ds)
    | None => Dict.get scores f = Dict.get acc f
    end.
Proof.
  revert acc. induction items as [|[k cs] items IH]; intros acc H Hnd f.
  - cbn in *. now injection H as <-.
  - cbn in H. destruct (decays cs) as [ds|] eqn:Eds; [|discriminate].
    cbn in H. inversion Hnd as [|? ? Hk Hnd']; subst.
    specialize (IH _ H Hnd' f). cbn [Dict.get].
    destruct (PyStr.eqb f k) eqn:E.
    + apply StrFacts.eqb_eq in E. subst k.
      apply DictFacts.get_None in Hk. rewrite Hk in IH.
      exists ds. split; [exact Eds|].
      now rewrite IH, DictFacts.get_set_same.
    + apply StrFacts.eqb_neq in E.
      destruct (Dict.get items f); [exact IH|].
      rewrite IH. apply DictFacts.get_set_other. congruence.
Qed.


End Scorer.

Lemma sample_run :
  analyze_files (C := sample_collaborators) sample_repo d2024_06_01
    sample_rg_files three_commits_log = Ok sample_analyzed.
Proof. reflexivity. Qed.

Lemma existsb_false {A : Type} (p : A -> bool) (l : list A) :
  existsb p l = false <-> forall x, In x l -> p x = false.
Proof.
  induction l as [|a l IH]; cbn; [tauto|].
  rewrite orb_false_iff, IH. split.
  - intros (Ha & Hl) x [<-|Hx]; auto.
  - intros H. split; auto.
Qed.

Section History.
Context `{C : Collaborators} `{F : PyFloat}.

Lemma analyze_files_inv (self self' : Repository) (today : date)
  (rg_files : str) (log : list str) :
  analyze_files self today rg_files log = Ok self' ->
  config self' = config self
  /\ index_inv (passes_filters self (PyStr.split_ws rg_files))
       (file_changes self')
  /\ compute_scores (file_changes self') Dict.empty
     = Ok (frecency_scores self').
Proof.
  unfold analyze_files. intros H.
  destruct (analyze_lines self today (PyStr.split_ws rg_files)
              (None, Dict.empty) log) as [[cur changes]|] eqn:E;
    [|discriminate].
  apply analyze_lines_inv in E; [|apply index_inv_empty].
  cbn [bind snd] in H, E. unfold _compute_frecency in H.
  cbn [file_changes Dict.items] in H.
  destruct (compute_scores changes Dict.empty) as [scores|] eqn:Es;
    [|discriminate].
  cbn in H. injection H as <-. cbn. auto.
Qed.

Lemma analyze_files_scores (self self' : Repository) (today : date)
  (rg_files : str) (log : list str) :
  analyze_files self today rg_files log = Ok self' ->
  forall f,
    match Dict.get (file_changes self') f with
    | Some commits =>
        exists records,
          commits = map Some records /\ records <> []
          /\ Dict.get (frecency_scores self') f
             = Some (fsum (map (fun c => decay (days_passed c)) records))
    | None => Dict.get (frecency_scores self') f = None
    end.
Proof.
  intros H f. apply analyze_files_inv in H.
  destruct H as (_ & (Hnd & _ & Hne) & Hs).
  pose proof (compute_scores_get _ _ _ Hs Hnd f) as Hf.
  destruct (Dict.get (file_changes self') f) as [commits|] eqn:E;
    [|exact Hf].
  destruct Hf as (ds & Hds & Hget).
  apply decays_inv in Hds. destruct Hds as (records & -> & ->).
  exists records. repeat split; auto.
  intros ->. now apply (Hne f []).
Qed.


End History.




(** C5: after a completed [analyze_files], every filename of the change
    index is of a supported type, matches no ignore pattern and is in the
    set of tracked files read before the log. *)
Theorem C5_change_index_filtered `{C : Collaborators} `{F : PyFloat}
  (self self' : Repository) (today : date) (rg_files : str) (log : list str) :
  analyze_files self today rg_files log = Ok self' ->
  forall f : str,
    Dict.mem (file_changes self') f = true ->
    is_file_type_supported f = true
    /\ (forall pattern, In pattern (ignorePatterns (config self)) ->
                        path_match f pattern = false)
    /\ In f (PyStr.split_ws rg_files).
Proof.
  intros H f Hf. apply analyze_files_inv in H.
  destruct H as (_ & (_ & HP & _) & _).
  apply DictFacts.mem_In in Hf. destruct (HP f Hf) as (Hs & Hi & Hin).
  repeat split; auto.
  unfold _is_file_ignored in Hi. now apply existsb_false.
Qed.

Lemma C5_witness :
  is_file_type_supported (Collaborators := sample_collaborators) "a.py" = true
  /\ (forall pattern, In pattern ["secret.py" : str] ->
                      PyStr.eqb "a.py" pattern = false)
  /\ In ("a.py" : str) (PyStr.split_ws sample_rg_files).
Proof.
  exact (C5_change_index_filtered (C := sample_collaborators) sample_repo
           sample_analyzed d2024_06_01 sample_rg_files three_commits_log
           eq_refl "a.py" eq_refl).
Defined.




Module ListingFacts.
Import PyStr.











End ListingFacts.

Module ResolverFacts.
Import PyStr ListingFacts.














End ResolverFacts.



(** The digest of the three bytes [abc], as the standard gives it. *)
Example sha256_abc :
  Sha256.hexdigest (encode "abc")
  = "ba7816bf8f01cfea414140de5dae2223b00361a396177a9cb410ff61f20015ad".
Proof. vm_compute. reflexivity. Qed.




(** C10: for a filename without a score, [get_file] raises a lookup error,
    the [IndexError] of the single-path lookup when the listing has no
    identity for it and the [KeyError] of the score table otherwise; it
    never returns an object.  A new repository has no score at all. *)
Theorem C10_get_file_raises_lookup_error `{C : Collaborators} `{F : PyFloat}
  (self : Repository) (ls_tree : list str -> str) (filename : str) :
  Dict.get (frecency_scores self) filename = None ->
  (exists e, get_file self ls_tree filename = Raise e
             /\ is_LookupError e = true
             /\ e = match nth_error (PyStr.split_ws (ls_tree [filename])) 2 with
                    | Some _ => KeyError filename
                    | None => IndexError
                    end)
  /\ (forall repo_path cfg, Dict.get (frecency_scores (init repo_path cfg)) filename = None).
Proof.
  intros H. split; [|reflexivity].
  unfold get_file, get_file_object_id.
  destruct (nth_error (PyStr.split_ws (ls_tree [filename])) 2); cbn [bind].
  - rewrite H. eauto.
  - eauto.
Qed.

Lemma C10_witness :
  exists e,
    get_file (C := sample_collaborators) sample_analyzed
      (git_ls_tree sample_head) "b.py" = Raise e
    /\ is_LookupError e = true
    /\ e = KeyError "b.py".
Proof.
  exact (proj1 (C10_get_file_raises_lookup_error (C := sample_collaborators)
                  sample_analyzed (git_ls_tree sample_head) "b.py" eq_refl)).
Defined.

Lemma get_of_In {V : Type} (d : Dict.t V) (k : str) (v : V) :
  NoDup (Dict.keys d) -> In (k, v) d -> Dict.get d k = Some v.
Proof.
  induction d as [|[k' v'] d IH]; cbn; intros Hnd Hin; [easy|].
  inversion Hnd as [|? ? Hk Hnd']; subst.
  destruct Hin as [E|Hin].
  - injection E as -> ->. now rewrite StrFacts.eqb_refl.
  - destruct (PyStr.eqb k k') eqn:E; [|auto].
    apply StrFacts.eqb_eq in E. subst k'. elim Hk.
    apply in_map_iff. now exists (k, v).
Qed.

Section Ranking.
Context `{C : Collaborators} `{F : PyFloat}.

Lemma subjects_records (records : list commit_info) :
  subjects (map Some records) = Ok (map commit_subject records).
Proof.
  induction records as [|c records IH]; cbn; [reflexivity|].
  now rewrite IH.
Qed.

Lemma compute_scores_NoDup (items : Dict.t (list (option commit_info)))
  (acc scores : Dict.t float) :
  compute_scores items acc = Ok scores ->
  NoDup (Dict.keys acc) -> NoDup (Dict.keys scores).
Proof.
  revert acc. induction items as [|[k cs] items IH]; intros acc H Hnd;
    cbn in H.
  - now injection H as <-.
  - destruct (decays cs); [|discriminate]. cbn in H.
    eapply IH; [exact H|]. now apply DictFacts.NoDup_set.
Qed.

Lemma insert_desc_perm (x : str * float) (l : list (str * float)) :
  Permutation (insert_desc x l) (x :: l).
Proof.
  induction l as [|y l IH]; cbn; [reflexivity|].
  destruct (fltb (snd x) (snd y)); [|reflexivity].
  rewrite IH. apply perm_swap.
Qed.

Lemma sorted_desc_perm (l : list (str * float)) :
  Permutation (sorted_desc l) l.
Proof.
  induction l as [|x l IH]; cbn; [reflexivity|].
  now rewrite insert_desc_perm, IH.
Qed.

Section Order.
Hypothesis fltb_asym : forall a b, fltb a b = true -> fltb b a = false.
Hypothesis fltb_negtrans :
  forall a b c, fltb a b = false -> fltb b c = false -> fltb a c = false.

Lemma insert_desc_sorted (x : str * float) (l : list (str * float)) :
  StronglySorted (@not_below F str) l -> StronglySorted (@not_below F str) (insert_desc x l).
Proof.
  induction 1 as [|y l Hl IH Hy]; cbn.
  - constructor; constructor.
  - destruct (fltb (snd x) (snd y)) eqn:E.
    + constructor; [exact IH|].
      apply Forall_forall. intros z Hz.
      apply (Permutation_in _ (insert_desc_perm x l)) in Hz.
      destruct Hz as [<-|Hz].
      * now apply fltb_asym.
      * rewrite Forall_forall in Hy. now apply Hy.
    + constructor; [now constructor|].
      constructor; [exact E|].
      apply Forall_forall. intros z Hz. rewrite Forall_forall in Hy.
      exact (fltb_negtrans _ _ _ E (Hy z Hz)).
Qed.

Lemma sorted_desc_sorted (l : list (str * float)) :
  StronglySorted (@not_below F str) (sorted_desc l).
Proof.
  induction l as [|x l IH]; cbn; [constructor|].
  now apply insert_desc_sorted.
Qed.
End Order.

Lemma StronglySorted_filter {A : Type} (R : A -> A -> Prop) (p : A -> bool)
  (l : list A) :
  StronglySorted R l -> StronglySorted R (filter p l).
Proof.
  induction 1 as [|a l Hl IH Ha]; cbn; [constructor|].
  destruct (p a); [|exact IH].
  constructor; [exact IH|].
  apply Forall_forall. intros x Hx. apply filter_In in Hx.
  rewrite Forall_forall in Ha. now apply Ha.
Qed.

Lemma StronglySorted_of_map {A B : Type} (R : A -> A -> Prop)
  (R' : B -> B -> Prop) (g : A -> B) (l : list A) :
  (forall a b, R' (g a) (g b) -> R a b) ->
  StronglySorted R' (map g l) -> StronglySorted R l.
Proof.
  intros HR. induction l as [|a l IH]; cbn; intros H; [constructor|].
  inversion H as [|? ? Hl Ha]; subst.
  constructor; [now apply IH|].
  apply Forall_forall. intros x Hx. apply HR.
  rewrite Forall_forall in Ha. apply Ha. now apply in_map.
Qed.

Lemma ranked_spec (self : Repository) (ids : Dict.t str)
  (sorted_files : list (str * float)) :
  (forall f s, In (f, s) sorted_files ->
               Dict.get (frecency_scores self) f = Some s
               /\ exists records,
                    Dict.get (file_changes self) f = Some (map Some records)) ->
  exists res,
    ranked (path self) ids (file_changes self) sorted_files
    = Ok (res, file_changes self)
    /\ map (fun r => (gf_path (fst r), snd r)) res
       = filter (fun item => Dict.mem ids (fst item)) sorted_files
    /\ Forall (entry_of self ids) res.
Proof.
  induction sorted_files as [|[f s] rest IH]; intros Hpre.
  - exists []. cbn. auto.
  - destruct IH as (res & Hrun & Hmap & Hall).
    { intros f' s' Hin. apply Hpre. now right. }
    cbn [ranked filter fst]. unfold Dict.mem.
    destruct (Dict.get ids f) as [oid|] eqn:Eid.
    + destruct (Hpre f s (or_introl eq_refl)) as (Hs & records & Hrec).
      unfold Dict.get_default. rewrite Hrec, subjects_records.
      cbn [bind]. rewrite Hrun. cbn [bind].
      eexists. split; [reflexivity|]. split.
      * cbn [map fst snd gf_path]. now rewrite Hmap.
      * constructor; [|exact Hall].
        unfold entry_of. cbn. repeat split; auto. now exists records.
    + exists res. auto.
Qed.

End Ranking.

(** C7: on the state a completed [analyze_files] leaves, and once the
    batch resolver has answered, [top_files] returns, and leaves the state
    as it was; its entries are exactly the scored files the resolver
    found, each once, in descending order of score; and each entry carries
    its score, its identity and the subjects of its records in the order
    of the change index. *)
Theorem C7_top_files_ranked `{C : Collaborators} `{F : PyFloat}
  (self0 self : Repository) (today : date) (rg_files : str) (log : list str)
  (ls_tree : list str -> str) (ids : Dict.t str) :
  (forall a b, fltb a b = true -> fltb b a = false) ->
  (forall a b c, fltb a b = false -> fltb b c = false -> fltb a c = false) ->
  analyze_files self0 today rg_files log = Ok self ->
  _get_all_object_ids ls_tree
    (map fst (sorted_desc (Dict.items (frecency_scores self)))) = Ok ids ->
  exists res : list (GitFile * float),
    top_files self ls_tree = Ok (res, self)
    /\ (forall f, In f (map (fun r => gf_path (fst r)) res)
                  <-> Dict.mem (frecency_scores self) f = true
                      /\ Dict.mem ids f = true)
    /\ NoDup (map (fun r => gf_path (fst r)) res)
    /\ StronglySorted not_below res
    /\ Forall (entry_of self ids) res.
Proof.
  intros Hasym Hneg Hrun Hids.
  pose proof (analyze_files_scores _ _ _ _ _ Hrun) as Hscores.
  apply analyze_files_inv in Hrun. destruct Hrun as (_ & _ & Hcs).
  assert (Hnd : NoDup (Dict.keys (frecency_scores self))).
  { eapply compute_scores_NoDup; [exact Hcs | constructor]. }
  set (sorted := sorted_desc (Dict.items (frecency_scores self))) in *.
  assert (Hperm : Permutation sorted (frecency_scores self))
    by apply sorted_desc_perm.
  destruct (ranked_spec self ids sorted) as (res & Hranked & Hmap & Hall).
  { intros f s Hin. apply (Permutation_in _ Hperm) in Hin.
    pose proof (get_of_In _ _ _ Hnd Hin) as Hget. split; [exact Hget|].
    specialize (Hscores f).
    destruct (Dict.get (file_changes self) f) as [commits|];
      [|congruence].
    destruct Hscores as (records & -> & _). now exists records. }
  assert (Hnames : map (fun r => gf_path (fst r)) res
                   = map fst (filter (fun item => Dict.mem ids (fst item)) sorted)).
  { rewrite <- Hmap, map_map. reflexivity. }
  exists res. split; [|split; [|split; [|split]]].
  - unfold top_files. fold sorted. rewrite Hids. cbn [bind].
    rewrite Hranked. cbn [bind]. now destruct self.
  - intros f. rewrite Hnames, in_map_iff. split.
    + intros ([f' s] & <- & Hin). apply filter_In in Hin.
      destruct Hin as [Hin Hm]. split; [|exact Hm].
      apply (Permutation_in _ Hperm) in Hin.
      apply DictFacts.mem_In. apply in_map_iff. now exists (f', s).
    + intros (Hs & Hm). apply DictFacts.mem_In in Hs.
      apply in_map_iff in Hs. destruct Hs as ([f' s] & <- & Hin).
      exists (f', s). split; [reflexivity|]. apply filter_In.
      split; [|exact Hm].
      apply (Permutation_in _ (Permutation_sym Hperm)), Hin.
  - rewrite Hnames.
    assert (Hk : NoDup (map fst sorted)).
    { apply (Permutation_NoDup (l := Dict.keys (frecency_scores self)));
        [|exact Hnd].
      apply Permutation_map, Permutation_sym, Hperm. }
    clear - Hk. induction sorted as [|x l IH]; cbn; [constructor|].
    inversion Hk as [|? ? Hx Hl]; subst.
    destruct (Dict.mem ids (fst x)); [|now apply IH].
    cbn. constructor; [|now apply IH].
    intros Hin. apply Hx. apply in_map_iff in Hin.
    destruct Hin as (y & Hy & Hin). apply filter_In in Hin.
    apply in_map_iff. exists y. tauto.
  - apply (StronglySorted_of_map _ (@not_below F str)
             (fun r => (gf_path (fst r), snd r))).
    + auto.
    + rewrite Hmap. apply StronglySorted_filter.
      now apply sorted_desc_sorted.
  - exact Hall.
Qed.

Lemma C7_witness :
  exists res : list (GitFile * float),
    top_files (C := sample_collaborators) sample_analyzed
      (git_ls_tree sample_head) = Ok (res, sample_analyzed)
    /\ (forall f, In f (map (fun r => gf_path (fst r)) res)
                  <-> Dict.mem (frecency_scores sample_analyzed) f = true
                      /\ Dict.mem
                           [("a.py" : str,
                             "8c7e5a667f1b771847fe88c01c3de34413a1b220" : str)]
                           f = true)
    /\ NoDup (map (fun r => gf_path (fst r)) res)
    /\ StronglySorted not_below res
    /\ Forall (entry_of (C := sample_collaborators) sample_analyzed
                 [("a.py" : str,
                   "8c7e5a667f1b771847fe88c01c3de34413a1b220" : str)]) res.
Proof.
  apply (C7_top_files_ranked (C := sample_collaborators) (F := real_float)
           sample_repo sample_analyzed d2024_06_01 sample_rg_files
           three_commits_log (git_ls_tree sample_head)).
  - intros a b. cbn. destruct (Rlt_dec a b), (Rlt_dec b a);
      intros; try reflexivity; try discriminate; lra.
  - intros a b c. cbn.
    destruct (Rlt_dec a b), (Rlt_dec b c), (Rlt_dec a c);
      intros; try reflexivity; try discriminate; lra.
  - reflexivity.
  - reflexivity.
Defined.

(** * Further properties *)

(** ** The builder, line by line *)

Section Lines.
Context `{C : Collaborators} `{F : PyFloat}.

Lemma analyze_lines_config (self1 self2 : Repository) (today : date)
  (files : list str) (log : list str) (st : loop_state) :
  config self1 = config self2 ->
  analyze_lines self1 today files st log = analyze_lines self2 today files st log.
Proof.
  intros E. revert st. induction log as [|raw log IH]; intros st; [reflexivity|].
  cbn [analyze_lines].
  replace (analyze_line self2 today files st raw)
    with (analyze_line self1 today files st raw).
  - destruct (analyze_line self1 today files st raw); cbn [bind]; auto.
  - destruct st as [cur changes]. unfold analyze_line, _is_file_ignored.
    now rewrite E.
Qed.

Lemma compute_frecency_preserves (self self' : Repository) :
  _compute_frecency self = Ok self' ->
  path self' = path self /\ config self' = config self
  /\ file_changes self' = file_changes self.
Proof.
  unfold _compute_frecency. intros H.
  destruct (compute_scores _ _); [|discriminate]. cbn in H.
  injection H as <-. cbn. auto.
Qed.

(** What one line does to the cursor and to the index. *)
Lemma analyze_line_step (self : Repository) (today : date) (files : list str)
  (cur cur' : option commit_info)
  (changes changes' : Dict.t (list (option commit_info))) (raw : str) :
  analyze_line self today files (cur, changes) raw = Ok (cur', changes') ->
  (is_header_line raw = true
   /\ (exists c, parse_commit_info today (PyStr.strip raw) = Ok c
                 /\ cur' = Some c)
   /\ changes' = changes
   /\ is_accepted_path self files raw = false)
  \/ (is_header_line raw = false /\ cur' = cur
      /\ changes' = if is_accepted_path self files raw
                    then Dict.append changes (PyStr.strip raw) cur
                    else changes).
Proof.
  intros H. unfold is_accepted_path, is_header_line.
  destruct (analyze_line_cases self today files cur changes raw)
    as [(Eh & E) | [(Eh & Hne & E) | (Eempty & E)]]; rewrite E in H; clear E.
  - left. rewrite Eh.
    destruct (parse_commit_info today (PyStr.strip raw)) as [c|];
      [|discriminate].
    cbn in H. injection H as <- <-. repeat split; eauto.
  - right. rewrite Eh. injection H as <- <-.
    apply StrFacts.eqb_neq in Hne. rewrite Hne. cbn [negb andb].
    split; [reflexivity|]. split; [reflexivity|].
    now destruct (negb _ || _ || negb _).
  - right. injection H as <- <-.
    assert (Eh : PyStr.contains ":::" (PyStr.strip raw) = false)
      by now rewrite Eempty.
    rewrite Eh, Eempty. cbn. auto.
Qed.


Lemma get_append_same_eq {V : Type} (d : Dict.t (list V)) (k : str) (v : V) :
  Dict.get (Dict.append d k v) k
  = Some (match Dict.get d k with Some l => l | None => [] end ++ [v]).
Proof.
  unfold Dict.append, Dict.get_default.
  destruct (Dict.get d k); apply DictFacts.get_set_same.
Qed.






End Lines.

(** X1: [analyze_files] rebuilds the index and the scores from nothing: its
    result depends on the repository only through its path and its
    configuration, an empty log leaves both tables empty, and analysing
    the same inputs again on the result gives the result back. *)
Theorem X1_analyze_files_rebuilds `{C : Collaborators} `{F : PyFloat}
  (self1 self2 : Repository) (today : date) (rg_files : str) (log : list str) :
  path self1 = path self2 -> config self1 = config self2 ->
  analyze_files self1 today rg_files log = analyze_files self2 today rg_files log
  /\ analyze_files self1 today rg_files []
     = Ok (init (path self2) (config self2))
  /\ (forall self', analyze_files self1 today rg_files log = Ok self' ->
        path self' = path self2 /\ config self' = config self2
        /\ analyze_files self' today rg_files log = Ok self').
Proof.
  intros Hp Hc.
  assert (Hsame : forall a b : Repository,
             path a = path b -> config a = config b ->
             analyze_files a today rg_files log
             = analyze_files b today rg_files log).
  { intros a b Ep Ec. unfold analyze_files.
    rewrite (analyze_lines_config a b today _ log _ Ec).
    destruct (analyze_lines b today _ _ log) as [[cur changes]|];
      [|reflexivity].
    cbn [bind]. unfold _compute_frecency. cbn [file_changes path config].
    now rewrite Ep, Ec. }
  split; [now apply Hsame|]. split.
  - unfold analyze_files. cbn. unfold init. now rewrite Hp, Hc.
  - intros self' H.
    assert (Hpc : path self' = path self1 /\ config self' = config self1).
    { unfold analyze_files in H.
      destruct (analyze_lines self1 today _ _ log) as [[cur changes]|];
        [|discriminate].
      cbn [bind] in H. apply compute_frecency_preserves in H. cbn in H. tauto. }
    destruct Hpc as (Ep & Ec).
    split; [congruence|]. split; [congruence|].
    now rewrite (Hsame self' self1 Ep Ec).
Qed.

Lemma X1_witness :
  analyze_files (C := sample_collaborators) sample_repo d2024_06_01
    sample_rg_files three_commits_log
  = analyze_files (C := sample_collaborators) sample_analyzed d2024_06_01
      sample_rg_files three_commits_log
  /\ analyze_files (C := sample_collaborators) sample_repo d2024_06_01
       sample_rg_files []
     = Ok (init (path sample_analyzed) (config sample_analyzed)).
Proof.
  destruct (X1_analyze_files_rebuilds (C := sample_collaborators)
              sample_repo sample_analyzed d2024_06_01 sample_rg_files
              three_commits_log eq_refl eq_refl) as (H1 & H2 & _).
  split; [exact H1 | exact H2].
Defined.



(** ** Where the entries of the index come from *)

Section Sources.
Context `{C : Collaborators} `{F : PyFloat}.
Variables (self : Repository) (today : date) (files : list str).

Lemma lines_sources (all log : list str) (st st' : loop_state) :
  incl log all ->
  (forall c, fst st = Some c -> header_record today all c) ->
  (forall k l c, Dict.get (snd st) k = Some l -> In (Some c) l ->
                 header_record today all c) ->
  analyze_lines self today files st log = Ok st' ->
  (forall c, fst st' = Some c -> header_record today all c)
  /\ (forall k l c, Dict.get (snd st') k = Some l -> In (Some c) l ->
                    header_record today all c).
Proof.
  revert st. induction log as [|raw log IH]; intros [cur changes] Hincl Hcur Hch H.
  - cbn in H. injection H as <-. auto.
  - cbn [analyze_lines] in H.
    destruct (analyze_line self today files (cur, changes) raw)
      as [[cur1 changes1]|] eqn:E; [|discriminate].
    cbn [bind] in H. cbn [fst snd] in Hcur, Hch.
    assert (Hraw : In raw all) by (apply Hincl; now left).
    assert (Hincl' : incl log all) by (intros x Hx; apply Hincl; now right).
    apply analyze_line_step in E. apply (IH (cur1, changes1) Hincl'); auto.
    + cbn [fst]. intros c Hc.
      destruct E as [(Hh & (c1 & Hp & ->) & _) | (_ & -> & _)]; [|auto].
      injection Hc as <-. exists raw. auto.
    + cbn [snd]. intros k l c Hl Hin.
      destruct E as [(_ & _ & -> & _) | (_ & -> & ->)]; [eauto|].
      destruct (is_accepted_path self files raw); [|eauto].
      destruct (list_eq_dec ascii_dec (PyStr.strip raw) k) as [<-|Hne].
      * rewrite get_append_same_eq in Hl. injection Hl as <-.
        apply in_app_or in Hin. destruct Hin as [Hin|[Ec|[]]]; [|auto].
        destruct (Dict.get changes (PyStr.strip raw)) as [l0|] eqn:E0;
          [eauto | destruct Hin].
      * rewrite DictFacts.get_append_other in Hl by exact Hne. eauto.
Qed.

Lemma lines_keys (log : list str) (st st' : loop_state) :
  analyze_lines self today files st log = Ok st' ->
  forall k, In k (Dict.keys (snd st')) ->
            In k (Dict.keys (snd st))
            \/ exists raw, In raw log /\ is_accepted_path self files raw = true
                           /\ k = PyStr.strip raw.
Proof.
  revert st. induction log as [|raw log IH]; intros [cur changes] H k Hk.
  - cbn in H. injection H as <-. now left.
  - cbn [analyze_lines] in H.
    destruct (analyze_line self today files (cur, changes) raw)
      as [[cur1 changes1]|] eqn:E; [|discriminate].
    cbn [bind] in H. apply analyze_line_step in E.
    destruct (IH _ H k Hk) as [Hin | (raw' & Hr & Ha & ->)].
    + cbn [snd] in Hin |- *.
      destruct E as [(_ & _ & -> & _) | (_ & _ & ->)]; [now left|].
      destruct (is_accepted_path self files raw) eqn:Ea; [|now left].
      apply DictFacts.In_keys_append in Hin. destruct Hin as [->|Hin].
      * right. exists raw. cbn. auto.
      * now left.
    + right. exists raw'. cbn. auto.
Qed.

End Sources.

Lemma split_ws_tokens (cur s tok : str) :
  forallb (fun c => negb (PyStr.isspace c)) cur = true ->
  In tok (PyStr.split_ws_from cur s) ->
  tok <> [] /\ forallb (fun c => negb (PyStr.isspace c)) tok = true.
Proof.
  revert cur. induction s as [|c s IH]; intros cur Hcur Hin.
  - cbn in Hin. destruct cur as [|d cur]; [destruct Hin|].
    destruct Hin as [<-|[]]. split.
    + intros E. apply (f_equal (@rev ascii)) in E.
      rewrite rev_involutive in E. discriminate.
    + rewrite forallb_forall in *. intros x Hx. apply Hcur.
      now apply in_rev.
  - cbn [PyStr.split_ws_from] in Hin. destruct (PyStr.isspace c) eqn:Ec.
    + destruct cur as [|d cur]; [now apply (IH [])|].
      destruct Hin as [<-|Hin]; [|now apply (IH [])]. split.
      * intros E. apply (f_equal (@rev ascii)) in E.
        rewrite rev_involutive in E. discriminate.
      * rewrite forallb_forall in *. intros x Hx. apply Hcur.
        now apply in_rev.
    + apply (IH (c :: cur)); [|exact Hin]. cbn [forallb].
      now rewrite Ec, Hcur.
Qed.

(** X3: after a completed [analyze_files], every entry of the index is the
    record that [parse_commit_info] returns for a header line of the
    log. *)
Theorem X3_records_come_from_headers `{C : Collaborators} `{F : PyFloat}
  (self self' : Repository) (today : date) (rg_files : str) (log : list str) :
  analyze_files self today rg_files log = Ok self' ->
  forall (f : str) (commits : list (option commit_info)),
    Dict.get (file_changes self') f = Some commits ->
    forall entry, In entry commits ->
      exists (c : commit_info) (raw : str),
        entry = Some c /\ In raw log /\ is_header_line raw = true
        /\ parse_commit_info today (PyStr.strip raw) = Ok c.
Proof.
  intros H f commits Hf entry Hin.
  pose proof (analyze_files_scores self self' today rg_files log H f) as Hs.
  rewrite Hf in Hs. destruct Hs as (records & -> & _).
  apply in_map_iff in Hin. destruct Hin as (c & <- & Hc).
  unfold analyze_files in H.
  destruct (analyze_lines self today (PyStr.split_ws rg_files)
              (None, Dict.empty) log) as [[cur changes]|] eqn:E;
    [|discriminate].
  cbn [bind] in H. apply compute_frecency_preserves in H.
  destruct H as (_ & _ & Hfc). cbn [file_changes] in Hfc. subst changes.
  destruct (lines_sources self today _ log log (None, Dict.empty) _
              (incl_refl log)
              ltac:(intros ? Hx; discriminate Hx)
              ltac:(intros ? ? ? Hx; discriminate Hx) E) as (_ & Hall).
  destruct (Hall f (map Some records) c Hf (in_map Some _ _ Hc))
    as (raw & Hraw & Hh & Hp).
  exists c, raw. auto.
Qed.

Lemma X3_witness :
  exists (c : commit_info) (raw : str),
    Some (mkcommit "###b2b2b2b" 69 "Jane Doe <j@example.com>" "Second") = Some c
    /\ In raw three_commits_log /\ is_header_line raw = true
    /\ parse_commit_info (C := sample_collaborators) d2024_06_01
         (PyStr.strip raw) = Ok c.
Proof.
  apply (X3_records_come_from_headers (C := sample_collaborators)
           sample_repo sample_analyzed d2024_06_01 sample_rg_files
           three_commits_log eq_refl "a.py" (map Some three_commits) eq_refl).
  right. left. reflexivity.
Defined.

(** X4: after a completed [analyze_files], every filename of the index is
    a stripped line of the log, is not empty, holds no whitespace and no
    delimiter: a tracked file whose name contains a blank is never
    indexed, because the tracked set is the output of [rg --files] split
    at whitespace. *)
Theorem X4_indexed_names_have_no_blank `{C : Collaborators} `{F : PyFloat}
  (self self' : Repository) (today : date) (rg_files : str) (log : list str) :
  analyze_files self today rg_files log = Ok self' ->
  forall f : str,
    Dict.mem (file_changes self') f = true ->
    f <> []
    /\ forallb (fun c => negb (PyStr.isspace c)) f = true
    /\ PyStr.contains ":::" f = false
    /\ exists raw, In raw log /\ f = PyStr.strip raw.
Proof.
  intros H f Hf. apply DictFacts.mem_In in Hf.
  pose proof (analyze_files_inv self self' today rg_files log H)
    as (_ & (_ & HP & _) & _).
  destruct (HP f Hf) as (_ & _ & Htracked).
  destruct (split_ws_tokens [] rg_files f eq_refl Htracked) as (Hne & Hws).
  split; [exact Hne|]. split; [exact Hws|].
  unfold analyze_files in H.
  destruct (analyze_lines self today (PyStr.split_ws rg_files)
              (None, Dict.empty) log) as [[cur changes]|] eqn:E;
    [|discriminate].
  cbn [bind] in H. apply compute_frecency_preserves in H.
  destruct H as (_ & _ & Hfc). cbn [file_changes] in Hfc. subst changes.
  destruct (lines_keys self today _ log _ _ E f Hf) as [[]|(raw & Hr & Ha & ->)].
  unfold is_accepted_path, is_header_line in Ha.
  rewrite !andb_true_iff, !negb_true_iff in Ha.
  destruct Ha as ((Hh & _) & _). split; [exact Hh|]. eauto.
Qed.

Lemma X4_witness :
  ("a.py" : str) <> []
  /\ forallb (fun c => negb (PyStr.isspace c)) "a.py" = true
  /\ PyStr.contains ":::" "a.py" = false
  /\ exists raw, In raw three_commits_log /\ ("a.py" : str) = PyStr.strip raw.
Proof.
  exact (X4_indexed_names_have_no_blank (C := sample_collaborators)
           sample_repo sample_analyzed d2024_06_01 sample_rg_files
           three_commits_log eq_refl "a.py" eq_refl).
Defined.

Section Keys.
Context `{F : PyFloat}.

Lemma keys_set_new {V : Type} (d : Dict.t V) (k : str) (v : V) :
  ~ In k (Dict.keys d) -> Dict.keys (Dict.set d k v) = Dict.keys d ++ [k].
Proof.
  unfold Dict.keys.
  induction d as [|[k' v'] d IH]; cbn; intros Hk; [reflexivity|].
  destruct (PyStr.eqb k k') eqn:E.
  - apply StrFacts.eqb_eq in E. subst. tauto.
  - cbn. rewrite IH; tauto.
Qed.

Lemma compute_scores_keys (items : Dict.t (list (option commit_info)))
  (acc scores : Dict.t float) :
  compute_scores items acc = Ok scores ->
  NoDup (Dict.keys acc ++ Dict.keys items) ->
  Dict.keys scores = Dict.keys acc ++ Dict.keys items.
Proof.
  revert acc. induction items as [|[k cs] items IH]; intros acc H Hnd.
  - cbn in *. injection H as <-. now rewrite app_nil_r.
  - cbn [compute_scores] in H. destruct (decays cs) as [ds|]; [|discriminate].
    cbn [bind] in H. cbn [Dict.keys map fst] in Hnd |- *.
    assert (Hk : ~ In k (Dict.keys acc)).
    { intros Hin. apply NoDup_remove_2 in Hnd. apply Hnd.
      apply in_or_app. now left. }
    rewrite (IH _ H); rewrite (keys_set_new acc k _ Hk), <- app_assoc;
      [reflexivity | exact Hnd].
Qed.

End Keys.

(** X5: after a completed [analyze_files], the score table has the same
    filenames as the index, in the same order and each once. *)
Theorem X5_scores_follow_index `{C : Collaborators} `{F : PyFloat}
  (self self' : Repository) (today : date) (rg_files : str) (log : list str) :
  analyze_files self today rg_files log = Ok self' ->
  Dict.keys (frecency_scores self') = Dict.keys (file_changes self')
  /\ NoDup (Dict.keys (file_changes self')).
Proof.
  intros H. apply analyze_files_inv in H.
  destruct H as (_ & (Hnd & _) & Hs).
  split; [|exact Hnd]. now apply (compute_scores_keys _ Dict.empty).
Qed.

Lemma X5_witness :
  Dict.keys (frecency_scores sample_analyzed)
  = Dict.keys (file_changes sample_analyzed)
  /\ NoDup (Dict.keys (file_changes sample_analyzed)).
Proof.
  exact (X5_scores_follow_index (C := sample_collaborators) sample_repo
           sample_analyzed d2024_06_01 sample_rg_files three_commits_log
           eq_refl).
Defined.

(** ** The decay of a contribution *)








(** ** One path and many paths against the same snapshot *)








Lemma same_entry (head : list tree_entry) (e1 e2 : tree_entry) :
  NoDup (map e_path head) -> In e1 head -> In e2 head ->
  e_path e1 = e_path e2 -> e1 = e2.
Proof.
  induction head as [|e head IH]; intros Hnd H1 H2 Hp; [destruct H1|].
  cbn [map] in Hnd. inversion Hnd as [|? ? Hn Hnd']; subst.
  destruct H1 as [->|H1], H2 as [->|H2]; auto.
  - elim Hn. rewrite Hp. now apply in_map.
  - elim Hn. rewrite <- Hp. now apply in_map.
Qed.





(** ** The ranking and the single accessor *)

Section Views.
Context `{C : Collaborators} `{F : PyFloat}.

(** [top_files] on the state of a completed analysis, given the answer of
    the resolver. *)
Lemma top_files_run (self0 self : Repository) (today : date) (rg_files : str)
  (log : list str) (ls_tree : list str -> str) (ids : Dict.t str) :
  analyze_files self0 today rg_files log = Ok self ->
  _get_all_object_ids ls_tree
    (map fst (sorted_desc (Dict.items (frecency_scores self)))) = Ok ids ->
  exists res,
    top_files self ls_tree = Ok (res, self)
    /\ map (fun r => (gf_path (fst r), snd r)) res
       = filter (fun item => Dict.mem ids (fst item))
           (sorted_desc (Dict.items (frecency_scores self)))
    /\ Forall (entry_of self ids) res.
Proof.
  intros Hrun Hids.
  pose proof (analyze_files_scores _ _ _ _ _ Hrun) as Hscores.
  apply analyze_files_inv in Hrun. destruct Hrun as (_ & _ & Hcs).
  assert (Hnd : NoDup (Dict.keys (frecency_scores self))).
  { eapply compute_scores_NoDup; [exact Hcs | constructor]. }
  destruct (ranked_spec self ids
              (sorted_desc (Dict.items (frecency_scores self))))
    as (res & Hranked & Hmap & Hall).
  { intros f s Hin.
    apply (Permutation_in _ (sorted_desc_perm _)) in Hin.
    pose proof (get_of_In _ _ _ Hnd Hin) as Hget. split; [exact Hget|].
    specialize (Hscores f).
    destruct (Dict.get (file_changes self) f) as [commits|]; [|congruence].
    destruct Hscores as (records & -> & _). now exists records. }
  exists res. split; [|auto].
  unfold top_files. rewrite Hids. cbn [bind]. rewrite Hranked. cbn [bind].
  now destruct self.
Qed.

Lemma filter_map_swap {A B : Type} (g : A -> B) (p : B -> bool) (l : list A) :
  filter p (map g l) = map g (filter (fun a => p (g a)) l).
Proof.
  induction l as [|a l IH]; cbn; [reflexivity|].
  destruct (p (g a)); cbn; now rewrite IH.
Qed.

Lemma filter_swap {A : Type} (p q : A -> bool) (l : list A) :
  filter p (filter q l) = filter q (filter p l).
Proof.
  induction l as [|a l IH]; cbn; [reflexivity|].
  destruct (p a) eqn:Ep, (q a) eqn:Eq; cbn; rewrite ?Ep, ?Eq, IH; reflexivity.
Qed.

Section Ties.
Hypothesis fltb_negtrans :
  forall a b c, fltb a b = false -> fltb b c = false -> fltb a c = false.

Lemma insert_desc_ties (s : float) (x : str * float) (l : list (str * float)) :
  filter (fun item => tied (snd item) s) (insert_desc x l)
  = filter (fun item => tied (snd item) s) (x :: l).
Proof.
  induction l as [|y l IH]; [reflexivity|].
  cbn [insert_desc]. destruct (fltb (snd x) (snd y)) eqn:Exy; [|reflexivity].
  cbn [filter] in IH |- *. rewrite IH.
  destruct (tied (snd x) s) eqn:Ex; [|reflexivity].
  destruct (tied (snd y) s) eqn:Ey; [|reflexivity].
  unfold tied in Ex, Ey. rewrite !andb_true_iff, !negb_true_iff in Ex, Ey.
  destruct Ex as (Hxs & _), Ey as (_ & Hsy).
  rewrite (fltb_negtrans _ _ _ Hxs Hsy) in Exy. discriminate.
Qed.

Lemma sorted_desc_ties (s : float) (l : list (str * float)) :
  filter (fun item => tied (snd item) s) (sorted_desc l)
  = filter (fun item => tied (snd item) s) l.
Proof.
  induction l as [|x l IH]; [reflexivity|].
  cbn [sorted_desc fold_right]. fold (sorted_desc l).
  rewrite insert_desc_ties. cbn [filter]. now rewrite IH.
Qed.

End Ties.
End Views.

(** X10: [top_files] breaks ties by the order of the score table: for any
    score, the entries tied with it come in the ranking in the order their
    files have in [frecency_scores]. *)
Theorem X10_ties_keep_table_order `{C : Collaborators} `{F : PyFloat}
  (self0 self : Repository) (today : date) (rg_files : str) (log : list str)
  (ls_tree : list str -> str) (ids : Dict.t str) :
  (forall a b c, fltb a b = false -> fltb b c = false -> fltb a c = false) ->
  analyze_files self0 today rg_files log = Ok self ->
  _get_all_object_ids ls_tree
    (map fst (sorted_desc (Dict.items (frecency_scores self)))) = Ok ids ->
  exists res : list (GitFile * float),
    top_files self ls_tree = Ok (res, self)
    /\ forall s : float,
         map (fun r => gf_path (fst r))
           (filter (fun r => tied (snd r) s) res)
         = map fst
             (filter (fun item => Dict.mem ids (fst item))
                (filter (fun item => tied (snd item) s)
                   (Dict.items (frecency_scores self)))).
Proof.
  intros Hneg Hrun Hids.
  destruct (top_files_run self0 self today rg_files log ls_tree ids Hrun Hids)
    as (res & Htop & Hmap & _).
  exists res. split; [exact Htop|]. intros s.
  rewrite <- (sorted_desc_ties Hneg s), filter_swap, <- Hmap.
  rewrite (filter_map_swap (fun r : GitFile * float => (gf_path (fst r), snd r))
             (fun item => tied (snd item) s)).
  rewrite map_map. reflexivity.
Qed.

Lemma X10_witness :
  exists res : list (GitFile * float),
    top_files (C := sample_collaborators) sample_analyzed
      (git_ls_tree sample_head) = Ok (res, sample_analyzed)
    /\ forall s : R,
         map (fun r => gf_path (fst r))
           (filter (fun r => tied (F := real_float) (snd r) s) res)
         = map fst
             (filter (fun item =>
                        Dict.mem
                          [("a.py" : str,
                            "8c7e5a667f1b771847fe88c01c3de34413a1b220" : str)]
                          (fst item))
                (filter (fun item => tied (F := real_float) (snd item) s)
                   (Dict.items (frecency_scores sample_analyzed)))).
Proof.
  apply (X10_ties_keep_table_order (C := sample_collaborators)
           (F := real_float) sample_repo sample_analyzed d2024_06_01
           sample_rg_files three_commits_log (git_ls_tree sample_head)).
  - intros a b c. cbn.
    destruct (Rlt_dec a b), (Rlt_dec b c), (Rlt_dec a c);
      intros; try reflexivity; try discriminate; lra.
  - reflexivity.
  - reflexivity.
Defined.



(** ** The shape of the fingerprint *)

Module DigestFacts.
Import Sha256.
Open Scope Z_scope.










End DigestFacts.


(** ** Reading a parsed header back *)

Lemma cut_spec (sep s before after : str) :
  sep <> [] -> PyStr.cut sep s = Some (before, after) ->
  s = before ++ sep ++ after /\ PyStr.contains sep before = false.
Proof.
  intros Hsep. revert before. induction s as [|c s IH]; intros before H.
  - cbn [PyStr.cut] in H. destruct (PyStr.startswith sep []) eqn:E;
      [|discriminate].
    apply StrFacts.startswith_iff in E. destruct E as (r & E).
    destruct sep; [congruence|discriminate].
  - cbn [PyStr.cut] in H. destruct (PyStr.startswith sep (c :: s)) eqn:E.
    + injection H as <- <-. apply StrFacts.startswith_iff in E.
      destruct E as (r & ->). cbn [app]. rewrite skipn_app, skipn_all,
        Nat.sub_diag. cbn [skipn app]. split; [reflexivity|].
      destruct sep; [congruence|reflexivity].
    + destruct (PyStr.cut sep s) as [[b a]|] eqn:Ec; [|discriminate].
      injection H as <- <-. destruct (IH b eq_refl) as (-> & Hb).
      split; [reflexivity|]. cbn [PyStr.contains]. rewrite Hb, orb_false_r.
      destruct (PyStr.startswith sep (c :: b)) eqn:E'; [|reflexivity].
      apply StrFacts.startswith_iff in E'. destruct E' as (r & E').
      assert (Ht : PyStr.startswith sep (c :: b ++ sep ++ a) = true).
      { apply StrFacts.startswith_iff. exists (r ++ sep ++ a).
        change (c :: b ++ sep ++ a) with ((c :: b) ++ sep ++ a).
        now rewrite E', <- app_assoc. }
      congruence.
Qed.

(** X13: a line that [parse_commit_info] accepts is its four fields put
    back together with the delimiter: the hash, the date text and the
    author hold no delimiter, the date text is the one [strptime] read,
    and whatever follows the third delimiter is the subject. *)
Theorem X13_parsed_line_is_join_of_fields `{C : Collaborators}
  (today : date) (line : str) (c : commit_info) :
  parse_commit_info today line = Ok c ->
  exists (date_str : str) (commit_date : date),
    line = commit_hash c ++ ":::" ++ date_str ++ ":::" ++ author c
           ++ ":::" ++ commit_subject c
    /\ PyStr.contains ":::" (commit_hash c) = false
    /\ PyStr.contains ":::" date_str = false
    /\ PyStr.contains ":::" (author c) = false
    /\ strptime_date date_str = Some commit_date
    /\ days_passed c = PyDate.days_between today commit_date.
Proof.
  intros H. apply parse_ok_inv in H.
  destruct H as (h & d & a & s & cd & E & P & ->).
  exists d, cd. cbn [commit_hash author commit_subject days_passed].
  cbn [PyStr.split] in E.
  destruct (PyStr.cut ":::" line) as [[b1 r1]|] eqn:E1; [|discriminate].
  destruct (PyStr.cut ":::" r1) as [[b2 r2]|] eqn:E2; [|discriminate].
  destruct (PyStr.cut ":::" r2) as [[b3 r3]|] eqn:E3; [|discriminate].
  injection E as -> -> -> ->.
  apply cut_spec in E1, E2, E3; try discriminate.
  destruct E1 as (-> & H1), E2 as (-> & H2), E3 as (-> & H3).
  repeat split; auto.
Qed.

Lemma X13_witness :
  exists (date_str : str) (commit_date : date),
    ("abc123:::2024-01-15 10:00:00 +0000:::Jane Doe <j@example.com>:::Fix:::bug"
     : str)
    = "abc123" ++ ":::" ++ date_str ++ ":::" ++ "Jane Doe <j@example.com>"
      ++ ":::" ++ "Fix:::bug"
    /\ PyStr.contains ":::" "abc123" = false
    /\ PyStr.contains ":::" date_str = false
    /\ PyStr.contains ":::" "Jane Doe <j@example.com>" = false
    /\ Strptime.ai date_str = Some commit_date
    /\ 5%Z = PyDate.days_between d2024_01_20 commit_date.
Proof.
  exact (X13_parsed_line_is_join_of_fields (C := sample_collaborators)
           d2024_01_20
           "abc123:::2024-01-15 10:00:00 +0000:::Jane Doe <j@example.com>:::Fix:::bug"
           (mkcommit "abc123" 5 "Jane Doe <j@example.com>" "Fix:::bug")
           eq_refl).
Defined.

(** ** The cap on the commits read *)


(** ** One more line in the log *)

Section Growth.
Context `{C : Collaborators} `{F : PyFloat}.
Variables (self : Repository) (today : date) (files : list str).

Lemma analyze_lines_app (l1 l2 : list str) (st : loop_state) :
  analyze_lines self today files st (l1 ++ l2)
  = (st' <- analyze_lines self today files st l1 ;;
     analyze_lines self today files st' l2).
Proof.
  revert st. induction l1 as [|raw l1 IH]; intros st; [reflexivity|].
  cbn [app analyze_lines].
  destruct (analyze_line self today files st raw); cbn [bind]; auto.
Qed.

Lemma skipped_line (st : loop_state) (raw : str) :
  is_header_line raw = false -> is_accepted_path self files raw = false ->
  analyze_line self today files st raw = Ok st.
Proof.
  destruct st as [cur changes]. intros Hh Ha.
  unfold is_accepted_path in Ha. rewrite Hh in Ha. cbn [negb andb] in Ha.
  unfold is_header_line in Hh.
  destruct (analyze_line_cases self today files cur changes raw)
    as [(Eh & _) | [(_ & Hne & E) | (_ & E)]]; [congruence| |exact E].
  rewrite E. apply StrFacts.eqb_neq in Hne. rewrite Hne in Ha.
  cbn [negb andb] in Ha. apply negb_false_iff in Ha. now rewrite Ha.
Qed.



End Growth.



(** X16: a line that is blank, or names a file that is unsupported,
    ignored or untracked, can be taken out of the log anywhere without
    changing what [analyze_files] returns. *)
Theorem X16_skipped_lines_do_not_count `{C : Collaborators} `{F : PyFloat}
  (self : Repository) (today : date) (rg_files : str)
  (before after : list str) (raw : str) :
  is_header_line raw = false ->
  is_accepted_path self (PyStr.split_ws rg_files) raw = false ->
  analyze_files self today rg_files (before ++ raw :: after)
  = analyze_files self today rg_files (before ++ after).
Proof.
  intros Hh Ha. unfold analyze_files. rewrite !analyze_lines_app.
  destruct (analyze_lines self today _ (None, Dict.empty) before) as [st|];
    [|reflexivity].
  cbn [bind analyze_lines]. now rewrite (skipped_line _ _ _ _ _ Hh Ha).
Qed.

Lemma X16_witness :
  analyze_files (C := sample_collaborators) sample_repo d2024_06_01
    sample_rg_files
    ([ln "###c3c3c3c:::2024-06-01 09:00:00 +0000:::Jane Doe <j@example.com>:::Third";
      ln "a.py"] ++ ln "gone.py" :: [ln "a.py"])
  = analyze_files (C := sample_collaborators) sample_repo d2024_06_01
      sample_rg_files
      ([ln "###c3c3c3c:::2024-06-01 09:00:00 +0000:::Jane Doe <j@example.com>:::Third";
        ln "a.py"] ++ [ln "a.py"]).
Proof.
  apply (X16_skipped_lines_do_not_count (C := sample_collaborators)
           (F := real_float)); reflexivity.
Defined.
